(** * Omni dashboard migration assistant: client and orchestrator

  A shallow embedding of

  - [lib/omni-api.ts]: the zod schemas and the [OmniAPI] class,
  - [config/omni.ts]: [OMNI_CONFIG] and [validateOmniConfig],
  - [components/DashboardMigration.tsx]: the React component with
    its [handleMigration] handler,

  followed by the properties of the written description that concern
  them.  Asynchronous code is written in a small monad that threads the
  log of observable events (HTTP calls handed to the runtime, React state
  updates) and propagates thrown values; the remote environments are a
  parameter of every run. *)

From Stdlib Require Import Ascii String DecimalString.
From stdpp Require Import base strings list gmap.

Set Warnings "-register-all".

(** ** The JavaScript values the program handles *)

Module Js.

(** Values produced by [JSON.parse], together with [undefined], which
    property reads yield.  A number is kept as its canonical decimal
    rendering (the result of [Number::toString]), so [0] and [-0] share
    the rendering ["0"]. *)
Inductive Value : Type :=
| Undefined
| Null
| Bool (b : bool)
| Number (repr : string)
| Str (s : string)
| Array (items : list Value)
| Object (fields : list (string * Value)).

(** What a [throw] carries: an instance of [Error] (or of a subclass,
    told apart by [name]) or any other value. *)
Inductive Thrown : Type :=
| ErrorObject (name message : string)
| ThrownValue (v : Value).

(** [new Error(message)] *)
Definition new_Error (message : string) : Thrown := ErrorObject "Error" message.

(** The [TypeError] raised by reading property [key] of [null] or
    [undefined] (V8's wording of the message). *)
Definition TypeError_read (base : string) (key : string) : Thrown :=
  ErrorObject "TypeError"
    ("Cannot read properties of " +:+ base +:+ " (reading '" +:+ key +:+ "')").

(** [err instanceof Error] *)
Definition instanceof_Error (err : Thrown) : bool :=
  match err with
  | ErrorObject _ _ => true
  | ThrownValue _ => false
  end.

(** [err.message], read after [instanceof_Error] has answered [true]. *)
Definition message_of (err : Thrown) : string :=
  match err with
  | ErrorObject _ message => message
  | ThrownValue _ => ""
  end.

(** [ToBoolean]: the falsy values are [undefined], [null], [false], [0],
    [NaN] and the empty string. *)
Definition ToBoolean (v : Value) : bool :=
  match v with
  | Undefined | Null => false
  | Bool b => b
  | Number repr => negb (String.eqb repr "0" || String.eqb repr "NaN")
  | Str s => negb (String.eqb s "")
  | Array _ | Object _ => true
  end.

(** [!s] on a string *)
Definition not_str (s : string) : bool := String.eqb s "".

(** [a || b] *)
Definition or (a b : Value) : Value := if ToBoolean a then a else b.

(** [a || b] where both operands are strings *)
Definition or_str (a b : string) : string := if not_str a then b else a.

(** [Array.prototype.join] on an array of strings *)
Definition join (sep : string) (parts : list string) : string :=
  String.concat sep parts.

(** Own property [key] of a field list; the first entry wins, so the
    list is read as the object's properties with the latest write in
    front. *)
Fixpoint own_property (fields : list (string * Value)) (key : string) : Value :=
  match fields with
  | [] => Undefined
  | (k, v) :: rest => if String.eqb k key then v else own_property rest key
  end.

(** Whether a field list has an own property [key], whatever its value. *)
Fixpoint has_own_property (fields : list (string * Value)) (key : string) : bool :=
  match fields with
  | [] => false
  | (k, _) :: rest => String.eqb k key || has_own_property rest key
  end.

(** The [TypeError] raised when an object has no way to a primitive value
    (V8's wording of the message). *)
Definition TypeError_to_primitive : Thrown :=
  ErrorObject "TypeError" "Cannot convert object to primitive value".

(** Applies [f] to the elements from left to right and stops at the first
    one that throws. *)
Definition traverse {A B : Type} (f : A → Thrown + B) : list A → Thrown + list B :=
  fix go (items : list A) : Thrown + list B :=
    match items with
    | [] => inr []
    | item :: rest =>
        match f item with
        | inl err => inl err
        | inr y =>
            match go rest with
            | inl err => inl err
            | inr ys => inr (y :: ys)
            end
        end
    end.

(** [ToString], as a template literal applies it; it can throw.  An
    array joins its elements with a comma, [null] and [undefined] elements
    rendering as empty.  A plain object is rendered by the [toString] it
    finds: that of [Object.prototype], which gives ["[object Object]"],
    unless the object has an own member of that name; a parsed value is
    never a function, so such a member cannot be called; [valueOf], own
    or inherited, gives no primitive value either, and the conversion
    throws. *)
Fixpoint ToString (v : Value) : Thrown + string :=
  match v with
  | Undefined => inr "undefined"
  | Null => inr "null"
  | Bool true => inr "true"
  | Bool false => inr "false"
  | Number repr => inr repr
  | Str s => inr s
  | Array items =>
      match traverse (fun item => match item with
                                  | Undefined | Null => inr ""
                                  | _ => ToString item
                                  end) items with
      | inl err => inl err
      | inr texts => inr (join "," texts)
      end
  | Object fields =>
      if has_own_property fields "toString" then inl TypeError_to_primitive
      else inr "[object Object]"
  end.

(** [null] and [undefined], the values no property can be read from. *)
Definition nullish (v : Value) : bool :=
  match v with
  | Undefined | Null => true
  | _ => false
  end.

(** [v.key], for the keys this program reads ([detail], [dashboard],
    [document], [workbookModel], [dashboardId]): none of them is an
    index, [length] or a member of a built-in prototype, so only a plain
    object can hold them; reading them from [null] or [undefined]
    throws. *)
Definition get (v : Value) (key : string) : Thrown + Value :=
  match v with
  | Undefined => inl (TypeError_read "undefined" key)
  | Null => inl (TypeError_read "null" key)
  | Object fields => inr (own_property fields key)
  | Bool _ | Number _ | Str _ | Array _ => inr Undefined
  end.

End Js.

(** ** The runtime's [fetch] and the monad of asynchronous code *)

Module Http.

(** The text handed over as a request body.  The program only ever
    builds it with [JSON.stringify]; the serializer belongs to the
    runtime, so the text is kept as the value it serializes. *)
Inductive Body : Type :=
| JSON_stringify (data : Js.Value).

(** [HeadersInit], what the [headers] member of a [RequestInit] may hold:
    a plain record, whose own enumerable properties are the headers; a
    [Headers] instance, which keeps its list of headers out of its
    properties; or an array of name-value pairs. *)
Inductive HeadersInit : Type :=
| HeadersRecord (entries : gmap string Js.Value)
| HeadersInstance (contents : list (string * string))
| HeadersPairs (pairs : list (string * string)).

(** The key of the element of index [i] of an array. *)
Definition index_key (i : nat) : string :=
  NilEmpty.string_of_uint (Nat.to_uint i).

(** The own enumerable properties of [headers], which are what an object
    spread [...headers] copies: nothing for [undefined] and for a
    [Headers] instance, the entries of a plain record, and for an array
    its elements under their indices. *)
Definition own_enumerable (headers : option HeadersInit) : gmap string Js.Value :=
  match headers with
  | None => ∅
  | Some (HeadersRecord entries) => entries
  | Some (HeadersInstance _) => ∅
  | Some (HeadersPairs pairs) =>
      list_to_map
        (imap (λ i pair, (index_key i, Js.Array [Js.Str pair.1; Js.Str pair.2]))
           pairs)
  end.

(** [RequestInit], with the members this program sets or reads. *)
Record RequestInit : Type := mkInit {
  method : option string;
  headers : option HeadersInit;
  body : option Body
}.

(** [{}] *)
Definition no_options : RequestInit :=
  {| method := None; headers := None; body := None |}.

(** One call of the runtime's [fetch(url, init)]. *)
Record Request : Type := mkRequest {
  url : string;
  init : RequestInit
}.

(** The HTTP method of a call: [GET] unless [init.method] says
    otherwise. *)
Definition method_of (r : Request) : string := default "GET" (method (init r)).

(** The part of a [Response] the program reads: [ok], [statusText] and
    what [json()] settles to (the parsed body, or the thrown value when
    the body is not JSON). *)
Record Response : Type := mkResponse {
  ok : bool;
  statusText : string;
  json : Js.Thrown + Js.Value
}.

(** The remote side: what [fetch] settles to for a call, given the
    calls made before it.  Every call settles, with a response or a
    thrown value: a call that stays pending for ever is outside this
    model, and what is proved of a run is proved of a run whose calls
    have settled. *)
Definition Network : Type := list Request → Request → Js.Thrown + Response.

End Http.

Module Async.

(** What a run does that can be observed from outside. *)
Inductive Event : Type :=
| Fetch (r : Http.Request)
| SetState (hook : string) (value : string).

Definition Async (A : Type) : Type :=
  Http.Network → list Event → (Js.Thrown + A) * list Event.

#[global] Instance Async_ret : MRet Async :=
  λ A x _ log, (inr x, log).

#[global] Instance Async_bind : MBind Async :=
  λ A B k m net log,
    match m net log with
    | (inl err, log') => (inl err, log')
    | (inr x, log') => k x net log'
    end.

(** [throw err] *)
Definition throw {A} (err : Js.Thrown) : Async A :=
  λ _ log, (inl err, log).

(** A synchronous step that may throw. *)
Definition lift {A} (r : Js.Thrown + A) : Async A :=
  λ _ log, (r, log).

(** [try { block } catch (err) { handler }] *)
Definition try_catch {A} (block : Async A) (handler : Js.Thrown → Async A) : Async A :=
  λ net log,
    match block net log with
    | (inl err, log') => handler err net log'
    | (inr x, log') => (inr x, log')
    end.

(** The HTTP calls of a log, oldest first. *)
Definition requests (log : list Event) : list Http.Request :=
  omap (λ ev, match ev with Fetch r => Some r | SetState _ _ => None end) log.

(** The state updates of a log, oldest first. *)
Definition updates (log : list Event) : list (string * string) :=
  omap (λ ev, match ev with SetState h v => Some (h, v) | Fetch _ => None end) log.

(** [await fetch(url, init)]: the call is recorded, then settles as the
    remote side decides. *)
Definition global_fetch (url : string) (init : Http.RequestInit) : Async Http.Response :=
  λ net log,
    let r := Http.mkRequest url init in
    (net (requests log) r, log ++ [Fetch r]).

(** A [useState] setter. *)
Definition set_state (hook : string) (value : string) : Async unit :=
  λ _ log, (inr tt, log ++ [SetState hook value]).

(** Running from an empty log. *)
Definition run {A} (m : Async A) (net : Http.Network) : (Js.Thrown + A) * list Event :=
  m net [].

End Async.

Import Async.

(** ** [lib/omni-api.ts] *)

Module OmniApi.

(** *** The zod schemas

    Each schema is the predicate its [safeParse] decides.  [z.any()]
    accepts every value, [undefined] included. *)

Definition z_object (v : Js.Value) : bool :=
  match v with
  | Js.Object _ => true
  | _ => false
  end.

Definition z_string (v : Js.Value) : bool :=
  match v with
  | Js.Str _ => true
  | _ => false
  end.

(** [schema.optional()] *)
Definition z_optional (schema : Js.Value → bool) (v : Js.Value) : bool :=
  match v with
  | Js.Undefined => true
  | _ => schema v
  end.

(** [z.literal(text)] for a string literal *)
Definition z_literal (text : string) (v : Js.Value) : bool :=
  match v with
  | Js.Str s => String.eqb s text
  | _ => false
  end.

Definition is_hex_digit (c : ascii) : bool :=
  let n := nat_of_ascii c in
  (Nat.leb 48 n && Nat.leb n 57) || (Nat.leb 65 n && Nat.leb n 70)
  || (Nat.leb 97 n && Nat.leb n 102).

(** Reads [n] hexadecimal digits off the front. *)
Fixpoint hex_digits (n : nat) (cs : list ascii) : option (list ascii) :=
  match n with
  | O => Some cs
  | S n' =>
      match cs with
      | c :: cs' => if is_hex_digit c then hex_digits n' cs' else None
      | [] => None
      end
  end.

(** Groups of hexadecimal digits of the given lengths, with a hyphen
    between two groups and nothing after the last. *)
Fixpoint hex_groups (lengths : list nat) (cs : list ascii) : bool :=
  match lengths with
  | [] => false
  | [n] =>
      match hex_digits n cs with
      | Some [] => true
      | _ => false
      end
  | n :: rest =>
      match hex_digits n cs with
      | Some (c :: cs') => Ascii.eqb c "-"%char && hex_groups rest cs'
      | _ => false
      end
  end.

(** The shape [z.string().uuid()] asks for: 8-4-4-4-12 hexadecimal
    digits. *)
Definition uuid_shaped (s : string) : bool :=
  hex_groups [8; 4; 4; 4; 12] (list_ascii_of_string s).

Definition z_string_uuid (v : Js.Value) : bool :=
  match v with
  | Js.Str s => uuid_shaped s
  | _ => false
  end.

(** [DashboardExportResponse] (lines 4-9) *)
Definition DashboardExportResponse (v : Js.Value) : bool :=
  z_object v
  && match Js.get v "exportVersion" with
     | inr exportVersion => z_string exportVersion
     | inl _ => false
     end.

(** [DashboardImportRequest] (lines 11-19) *)
Definition DashboardImportRequest (v : Js.Value) : bool :=
  match v with
  | Js.Object fields =>
      z_string_uuid (Js.own_property fields "baseModelId")
      && z_optional z_string (Js.own_property fields "identifier")
      && z_optional z_string (Js.own_property fields "folderPath")
      && z_literal "0.1" (Js.own_property fields "exportVersion")
  | _ => false
  end.

(** *** The class *)

Record OmniAPI : Type := new_OmniAPI {
  baseUrl : string;
  token : string
}.

(** [{ ...target, ...source }] on plain records: the properties of
    [source] are written after those of [target], so a key of both
    keeps [source]'s value. *)
Definition spread (target source : gmap string Js.Value) : gmap string Js.Value :=
  source ∪ target.

(** The second argument of the runtime's [fetch] (lines 35-40): the
    caller's options, with [headers] replaced by a record holding the
    two headers of the client, over which [...options.headers] is
    spread. *)
Definition fetch_init (this : OmniAPI) (options : Http.RequestInit) : Http.RequestInit :=
  {| Http.method := Http.method options;
     Http.body := Http.body options;
     Http.headers :=
       Some (Http.HeadersRecord
               (spread
                  {[ "Authorization" := Js.Str ("Bearer " +:+ token this);
                     "Content-Type" := Js.Str "application/json" ]}
                  (Http.own_enumerable (Http.headers options)))) |}.

(** [private async fetch<T>(endpoint, options = {})] (lines 33-49) *)
Definition fetch (this : OmniAPI) (endpoint : string)
    (options : Http.RequestInit) : Async Js.Value :=
  response ← global_fetch (baseUrl this +:+ endpoint) (fetch_init this options);
  if negb (Http.ok response) then
    error ← lift (Http.json response);
    detail ← lift (Js.get error "detail");
    text ← lift (Js.ToString (Js.or detail (Js.Str (Http.statusText response))));
    throw (Js.new_Error ("Omni API Error: " +:+ text))
  else
    lift (Http.json response).

(** [async exportDashboard(dashboardId)] (lines 51-53) *)
Definition exportDashboard (this : OmniAPI) (dashboardId : string) : Async Js.Value :=
  fetch this ("/api/unstable/documents/" +:+ dashboardId +:+ "/export")
    Http.no_options.

(** [async importDashboard(data)] (lines 55-69) *)
Definition importDashboard (this : OmniAPI) (data : Js.Value) : Async Js.Value :=
  fetch this "/api/unstable/documents/import"
    {| Http.method := Some "POST";
       Http.headers := None;
       Http.body := Some (Http.JSON_stringify data) |}.

(** *** The calls as the remote side sees them *)

(** What [fetch] settles to (lines 43-48), given what the runtime's
    [fetch] settled to. *)
Definition settled (outcome : Js.Thrown + Http.Response) : Js.Thrown + Js.Value :=
  match outcome with
  | inl err => inl err
  | inr response =>
      if negb (Http.ok response) then
        match Http.json response with
        | inl err => inl err
        | inr error =>
            match Js.get error "detail" with
            | inl err => inl err
            | inr detail =>
                match Js.ToString
                        (Js.or detail (Js.Str (Http.statusText response))) with
                | inl err => inl err
                | inr text => inl (Js.new_Error ("Omni API Error: " +:+ text))
                end
            end
        end
      else Http.json response
  end.

(** The call [fetch] hands to the runtime. *)
Definition call (this : OmniAPI) (endpoint : string) (options : Http.RequestInit)
    : Http.Request :=
  Http.mkRequest (baseUrl this +:+ endpoint) (fetch_init this options).

(** The call behind [exportDashboard]. *)
Definition export_call (this : OmniAPI) (dashboardId : string) : Http.Request :=
  call this ("/api/unstable/documents/" +:+ dashboardId +:+ "/export")
    Http.no_options.

(** The call behind [importDashboard]. *)
Definition import_call (this : OmniAPI) (data : Js.Value) : Http.Request :=
  call this "/api/unstable/documents/import"
    {| Http.method := Some "POST";
       Http.headers := None;
       Http.body := Some (Http.JSON_stringify data) |}.

End OmniApi.

(** ** [config/omni.ts] *)

Module Config.

Record OmniEnvironment : Type := mkEnvironment {
  baseUrl : string;
  token : string
}.

Record OmniConfig : Type := mkConfig {
  source : OmniEnvironment;
  target : OmniEnvironment
}.

(** [process.env.NAME || ''] *)
Definition env_or_empty (process_env : gmap string string) (name : string) : string :=
  match process_env !! name with
  | Some value => Js.or_str value ""
  | None => ""
  end.

(** [OMNI_CONFIG], as it is computed from [process.env] when the module
    loads. *)
Definition OMNI_CONFIG (process_env : gmap string string) : OmniConfig :=
  {| source :=
       {| baseUrl := env_or_empty process_env "NEXT_PUBLIC_SOURCE_OMNI_URL";
          token := env_or_empty process_env "SOURCE_OMNI_API_TOKEN" |};
     target :=
       {| baseUrl := env_or_empty process_env "NEXT_PUBLIC_TARGET_OMNI_URL";
          token := env_or_empty process_env "TARGET_OMNI_API_TOKEN" |} |}.

(** [if (!setting) missingVars.push(name)] *)
Definition push_if_missing (setting name : string) (missingVars : list string) : list string :=
  if Js.not_str setting then missingVars ++ [name] else missingVars.

(** The [missingVars] array once the four tests have run. *)
Definition missing_vars (config : OmniConfig) : list string :=
  let missingVars := [] in
  let missingVars :=
    push_if_missing (baseUrl (source config)) "NEXT_PUBLIC_SOURCE_OMNI_URL" missingVars in
  let missingVars :=
    push_if_missing (token (source config)) "SOURCE_OMNI_API_TOKEN" missingVars in
  let missingVars :=
    push_if_missing (baseUrl (target config)) "NEXT_PUBLIC_TARGET_OMNI_URL" missingVars in
  let missingVars :=
    push_if_missing (token (target config)) "TARGET_OMNI_API_TOKEN" missingVars in
  missingVars.

(** [validateOmniConfig()], reading the given [OMNI_CONFIG]. *)
Definition validateOmniConfig (config : OmniConfig) : Js.Thrown + bool :=
  let missingVars := missing_vars config in
  if Nat.ltb 0 (length missingVars) then
    inl (Js.new_Error
           ("Missing required environment variables: " +:+ Js.join ", " missingVars))
  else
    inr true.

(** The four settings, by the names of their environment variables. *)
Definition required : list string :=
  [ "NEXT_PUBLIC_SOURCE_OMNI_URL"; "SOURCE_OMNI_API_TOKEN";
    "NEXT_PUBLIC_TARGET_OMNI_URL"; "TARGET_OMNI_API_TOKEN" ].

(** A setting is missing when its variable is unset or empty. *)
Definition missing (process_env : gmap string string) (name : string) : Prop :=
  process_env !! name = None ∨ process_env !! name = Some "".

End Config.

(** ** [components/DashboardMigration.tsx] *)

Module DashboardMigration.

(** The five [useState] cells of the component. *)
Record State : Type := mkState {
  sourceDashboardId : string;
  targetModelId : string;
  status : string;
  error : string;
  configError : string
}.

(** Every cell starts as [useState('')]. *)
Definition initial : State :=
  {| sourceDashboardId := ""; targetModelId := ""; status := "";
     error := ""; configError := "" |}.

Definition setSourceDashboardId : string → Async unit := set_state "sourceDashboardId".
Definition setTargetModelId : string → Async unit := set_state "targetModelId".
Definition setStatus : string → Async unit := set_state "status".
Definition setError : string → Async unit := set_state "error".
Definition setConfigError : string → Async unit := set_state "configError".

(** The effect of one setter call on the cells. *)
Definition apply_update (st : State) (update : string * string) : State :=
  let '(hook, value) := update in
  if String.eqb hook "sourceDashboardId" then
    {| sourceDashboardId := value; targetModelId := targetModelId st;
       status := status st; error := error st; configError := configError st |}
  else if String.eqb hook "targetModelId" then
    {| sourceDashboardId := sourceDashboardId st; targetModelId := value;
       status := status st; error := error st; configError := configError st |}
  else if String.eqb hook "status" then
    {| sourceDashboardId := sourceDashboardId st; targetModelId := targetModelId st;
       status := value; error := error st; configError := configError st |}
  else if String.eqb hook "error" then
    {| sourceDashboardId := sourceDashboardId st; targetModelId := targetModelId st;
       status := status st; error := value; configError := configError st |}
  else if String.eqb hook "configError" then
    {| sourceDashboardId := sourceDashboardId st; targetModelId := targetModelId st;
       status := status st; error := error st; configError := value |}
  else st.

(** The cells after the setter calls of a log. *)
Definition state_of (log : list Event) : State :=
  foldl apply_update initial (updates log).

(** The mount effect (lines 27-33). *)
Definition mount_effect (config : Config.OmniConfig) : Async unit :=
  try_catch
    (_ ← lift (Config.validateOmniConfig config); mret tt)
    (λ err,
       setConfigError
         (if Js.instanceof_Error err then Js.message_of err
          else "Configuration error")).

(** The object literal handed to [importDashboard] (lines 50-56); its
    members are evaluated in the order they are written. *)
Definition import_request (targetModelId : string) (exportData : Js.Value)
    : Js.Thrown + Js.Value :=
  match Js.get exportData "dashboard" with
  | inl err => inl err
  | inr dashboard =>
      match Js.get exportData "document" with
      | inl err => inl err
      | inr document =>
          match Js.get exportData "workbookModel" with
          | inl err => inl err
          | inr workbookModel =>
              inr (Js.Object
                     [ ("baseModelId", Js.Str targetModelId);
                       ("dashboard", dashboard);
                       ("document", document);
                       ("workbookModel", workbookModel);
                       ("exportVersion", Js.Str "0.1") ])
          end
      end
  end.

(** [importResult.dashboard.dashboardId] (line 58) *)
Definition new_dashboard_id (importResult : Js.Value) : Js.Thrown + Js.Value :=
  match Js.get importResult "dashboard" with
  | inl err => inl err
  | inr dashboard => Js.get dashboard "dashboardId"
  end.

(** The interpolation [${importResult.dashboard.dashboardId}] of line
    58: the member reads, then the conversion to text. *)
Definition new_dashboard_text (importResult : Js.Value) : Js.Thrown + string :=
  match new_dashboard_id importResult with
  | inl err => inl err
  | inr dashboardId => Js.ToString dashboardId
  end.

(** [err instanceof Error ? err.message : 'An unknown error occurred']
    (line 60) *)
Definition error_text (err : Js.Thrown) : string :=
  if Js.instanceof_Error err then Js.message_of err
  else "An unknown error occurred".

(** The [catch] block of [handleMigration] (lines 59-62). *)
Definition on_error (err : Js.Thrown) : Async unit :=
  setError (error_text err);;
  setStatus "Migration failed".

(** [new OmniAPI(OMNI_CONFIG.source.baseUrl, OMNI_CONFIG.source.token)] *)
Definition sourceApi (config : Config.OmniConfig) : OmniApi.OmniAPI :=
  OmniApi.new_OmniAPI (Config.baseUrl (Config.source config))
                      (Config.token (Config.source config)).

(** [new OmniAPI(OMNI_CONFIG.target.baseUrl, OMNI_CONFIG.target.token)] *)
Definition targetApi (config : Config.OmniConfig) : OmniApi.OmniAPI :=
  OmniApi.new_OmniAPI (Config.baseUrl (Config.target config))
                      (Config.token (Config.target config)).

(** [handleMigration] (lines 35-63), closed over the two identifiers of
    the render in which the button was clicked. *)
Definition handleMigration (config : Config.OmniConfig)
    (sourceDashboardId targetModelId : string) : Async unit :=
  try_catch
    (setStatus "Starting migration...";;
     setError "";;
     let sourceApi := sourceApi config in
     let targetApi := targetApi config in
     setStatus "Exporting dashboard from source environment...";;
     exportData ← OmniApi.exportDashboard sourceApi sourceDashboardId;
     setStatus "Importing dashboard to target environment...";;
     data ← lift (import_request targetModelId exportData);
     importResult ← OmniApi.importDashboard targetApi data;
     dashboardId ← lift (new_dashboard_id importResult);
     text ← lift (Js.ToString dashboardId);
     setStatus ("Migration completed successfully! New dashboard ID: " +:+ text))
    on_error.

(** What the component renders (lines 65-135): the configuration error
    alone, or the form with its two inputs and the button. *)
Inductive View : Type :=
| ConfigurationError (message : string)
| Form (source_value target_value : string) (button_disabled : bool).

Definition render (st : State) : View :=
  if negb (Js.not_str (configError st)) then
    ConfigurationError (configError st)
  else
    Form (sourceDashboardId st) (targetModelId st)
         (Js.not_str (sourceDashboardId st) || Js.not_str (targetModelId st)).

(** What a user can do to the page. *)
Inductive Action : Type :=
| ChangeSource (value : string)
| ChangeTarget (value : string)
| ClickStartMigration.

(** One user action on the page whose history is [log]: an input's
    [onChange], or the button's [onClick], which a disabled button does
    not fire.  When the configuration error is rendered there is
    neither input nor button.  A run of [handleMigration] is taken to
    finish before the next action. *)
Definition act (config : Config.OmniConfig) (net : Http.Network)
    (log : list Event) (a : Action) : list Event :=
  match render (state_of log) with
  | ConfigurationError _ => log
  | Form _ _ button_disabled =>
      match a with
      | ChangeSource value => snd (setSourceDashboardId value net log)
      | ChangeTarget value => snd (setTargetModelId value net log)
      | ClickStartMigration =>
          if button_disabled then log
          else snd (handleMigration config
                      (sourceDashboardId (state_of log))
                      (targetModelId (state_of log)) net log)
      end
  end.

(** The page once mounted: the first render and its effect. *)
Definition mount (config : Config.OmniConfig) (net : Http.Network) : list Event :=
  snd (run (mount_effect config) net).

(** A whole session: mount, then the user's actions in order. *)
Definition session (config : Config.OmniConfig) (net : Http.Network)
    (actions : list Action) : list Event :=
  foldl (act config net) (mount config net) actions.

(** The number of clicks on the button among a user's actions. *)
Fixpoint clicks (actions : list Action) : nat :=
  match actions with
  | [] => 0
  | ClickStartMigration :: rest => S (clicks rest)
  | _ :: rest => clicks rest
  end.

End DashboardMigration.

(** ** Concrete environments, payloads and remote sides *)

Module Scenario.

Definition process_env : gmap string string :=
  {[ "NEXT_PUBLIC_SOURCE_OMNI_URL" := "https://source.omniapp.co";
     "SOURCE_OMNI_API_TOKEN" := "source-token";
     "NEXT_PUBLIC_TARGET_OMNI_URL" := "https://target.omniapp.co";
     "TARGET_OMNI_API_TOKEN" := "target-token" ]}.

(** The same environment without the two tokens. *)
Definition process_env_without_tokens : gmap string string :=
  {[ "NEXT_PUBLIC_SOURCE_OMNI_URL" := "https://source.omniapp.co";
     "NEXT_PUBLIC_TARGET_OMNI_URL" := "https://target.omniapp.co" ]}.

Definition config : Config.OmniConfig := Config.OMNI_CONFIG process_env.

Definition model_id : string := "11111111-1111-1111-1111-111111111111".

(** An export bundle of the given export version. *)
Definition bundle (exportVersion : string) : Js.Value :=
  Js.Object
    [ ("dashboard", Js.Object [("name", Js.Str "Sales")]);
      ("document", Js.Object [("tiles", Js.Array [Js.Number "1"; Js.Number "2"])]);
      ("exportVersion", Js.Str exportVersion);
      ("workbookModel", Js.Object [("views", Js.Array [])]) ].

(** An import request for the given base model and export version. *)
Definition request_for (baseModelId exportVersion : string) : Js.Value :=
  Js.Object
    [ ("baseModelId", Js.Str baseModelId);
      ("dashboard", Js.Object [("name", Js.Str "Sales")]);
      ("document", Js.Object [("tiles", Js.Array [Js.Number "1"; Js.Number "2"])]);
      ("workbookModel", Js.Object [("views", Js.Array [])]);
      ("exportVersion", Js.Str exportVersion) ].

Definition request (exportVersion : string) : Js.Value :=
  request_for model_id exportVersion.

Definition import_result : Js.Value :=
  Js.Object
    [ ("dashboard", Js.Object [("dashboardId", Js.Str "dash_456")]);
      ("miniUuidMap", Js.Object [("a1", Js.Str "b2")]);
      ("workbook",
       Js.Object [ ("id", Js.Str "wb_1"); ("identifier", Js.Str "sales");
                   ("name", Js.Str "Sales") ]) ].

(** A success response carrying [v]. *)
Definition answers (v : Js.Value) : Js.Thrown + Http.Response :=
  inr {| Http.ok := true; Http.statusText := "OK"; Http.json := inr v |}.

(** A non-success response with the given status text and body. *)
Definition refuses (statusText : string) (body : Js.Thrown + Js.Value)
    : Js.Thrown + Http.Response :=
  inr {| Http.ok := false; Http.statusText := statusText; Http.json := body |}.

(** What [json()] throws on a body that is not JSON. *)
Definition not_json : Js.Thrown :=
  Js.ErrorObject "SyntaxError" "Unexpected token < in JSON at position 0".

(** A remote side that settles every [GET] one way and every other call
    another way. *)
Definition remote (on_get on_post : Js.Thrown + Http.Response) : Http.Network :=
  λ _ r, if String.eqb (Http.method_of r) "GET" then on_get else on_post.

Definition api : OmniApi.OmniAPI :=
  OmniApi.new_OmniAPI "https://target.omniapp.co" "target-token".

(** The body of a validation failure: [detail] is a list of objects. *)
Definition validation_errors : Js.Value :=
  Js.Object
    [ ("detail",
       Js.Array
         [ Js.Object [("loc", Js.Array [Js.Str "body"; Js.Str "baseModelId"]);
                      ("msg", Js.Str "value is not a valid uuid")];
           Js.Object [("loc", Js.Array [Js.Str "body"; Js.Str "exportVersion"]);
                      ("msg", Js.Str "unexpected value")] ]) ].

End Scenario.

(** * Properties *)

Import DashboardMigration.

(** ** The log *)

Section Log.

Lemma requests_app (l1 l2 : list Event) :
  requests (l1 ++ l2) = requests l1 ++ requests l2.
Proof. unfold requests. apply omap_app. Qed.

Lemma updates_app (l1 l2 : list Event) :
  updates (l1 ++ l2) = updates l1 ++ updates l2.
Proof. unfold updates. apply omap_app. Qed.

Lemma requests_set_state (log : list Event) (hook value : string) :
  requests (log ++ [SetState hook value]) = requests log.
Proof. rewrite requests_app. simpl. apply app_nil_r. Qed.

Lemma requests_fetch (log : list Event) (r : Http.Request) :
  requests (log ++ [Fetch r]) = requests log ++ [r].
Proof. now rewrite requests_app. Qed.

Lemma state_of_set_state (log : list Event) (hook value : string) :
  state_of (log ++ [SetState hook value])
  = apply_update (state_of log) (hook, value).
Proof. unfold state_of. rewrite updates_app. simpl. now rewrite foldl_app. Qed.

Lemma state_of_fetch (log : list Event) (r : Http.Request) :
  state_of (log ++ [Fetch r]) = state_of log.
Proof. unfold state_of. rewrite updates_app. simpl. now rewrite app_nil_r. Qed.

End Log.

(** ** The client *)

Section Client.

Variable this : OmniApi.OmniAPI.
Variable net : Http.Network.

(** [fetch] makes exactly one call and settles as [settled] says. *)
Lemma fetch_eq (endpoint : string) (options : Http.RequestInit) (log : list Event) :
  OmniApi.fetch this endpoint options net log
  = (OmniApi.settled (net (requests log) (OmniApi.call this endpoint options)),
     log ++ [Fetch (OmniApi.call this endpoint options)]).
Proof.
  unfold OmniApi.fetch, OmniApi.settled, OmniApi.call, global_fetch, mbind,
    Async_bind, lift, throw.
  destruct (net _ _) as [err | response]; [reflexivity |].
  destruct (Http.ok response); simpl; [reflexivity |].
  destruct (Http.json response) as [err | error]; [reflexivity |].
  destruct (Js.get error "detail") as [err | detail]; [reflexivity |].
  destruct (Js.ToString _); reflexivity.
Qed.

Lemma exportDashboard_eq (dashboardId : string) (log : list Event) :
  OmniApi.exportDashboard this dashboardId net log
  = (OmniApi.settled (net (requests log) (OmniApi.export_call this dashboardId)),
     log ++ [Fetch (OmniApi.export_call this dashboardId)]).
Proof. apply fetch_eq. Qed.

Lemma importDashboard_eq (data : Js.Value) (log : list Event) :
  OmniApi.importDashboard this data net log
  = (OmniApi.settled (net (requests log) (OmniApi.import_call this data)),
     log ++ [Fetch (OmniApi.import_call this data)]).
Proof. apply fetch_eq. Qed.

(** The state updates recorded so far have no part in how a call
    settles: only the calls made before it do. *)
Lemma exportDashboard_outcome (dashboardId : string) (log log' : list Event) :
  requests log = requests log' →
  (OmniApi.exportDashboard this dashboardId net log).1
  = (OmniApi.exportDashboard this dashboardId net log').1.
Proof. intros E. rewrite !exportDashboard_eq. simpl. now rewrite E. Qed.

End Client.

(** ** The orchestrator *)

Section Orchestrator.

Variable config : Config.OmniConfig.
Variable net : Http.Network.

Lemma on_error_eq (err : Js.Thrown) (log : list Event) :
  on_error err net log
  = (inr tt,
     log ++ [SetState "error" (error_text err);
             SetState "status" "Migration failed"]).
Proof.
  unfold on_error, setError, setStatus, set_state, mbind, Async_bind.
  now rewrite <- app_assoc.
Qed.

(** A run of [handleMigration], spelt out along its four ways to fail and
    its one way to complete. *)
Lemma handleMigration_eq (source_id target_id : string) (log : list Event) :
  let GET := OmniApi.export_call (sourceApi config) source_id in
  let started :=
    log ++ [SetState "status" "Starting migration...";
            SetState "error" "";
            SetState "status" "Exporting dashboard from source environment...";
            Fetch GET] in
  let failed err :=
    [SetState "error" (error_text err); SetState "status" "Migration failed"] in
  let importing := SetState "status" "Importing dashboard to target environment..." in
  handleMigration config source_id target_id net log
  = (inr tt,
     match OmniApi.settled (net (requests log) GET) with
     | inl err => started ++ failed err
     | inr exportData =>
         match import_request target_id exportData with
         | inl err => started ++ importing :: failed err
         | inr data =>
             let POST := OmniApi.import_call (targetApi config) data in
             match OmniApi.settled (net (requests log ++ [GET]) POST) with
             | inl err => started ++ importing :: Fetch POST :: failed err
             | inr importResult =>
                 match new_dashboard_text importResult with
                 | inl err => started ++ importing :: Fetch POST :: failed err
                 | inr text =>
                     started ++
                       [importing; Fetch POST;
                        SetState "status"
                          ("Migration completed successfully! New dashboard ID: "
                           +:+ text)]
                 end
             end
         end
     end).
Proof.
  intros GET started failed importing.
  unfold handleMigration, try_catch, mbind, Async_bind, setStatus, setError,
    set_state, lift.
  cbn -[OmniApi.exportDashboard OmniApi.importDashboard on_error].
  rewrite exportDashboard_eq, !requests_set_state.
  fold GET.
  destruct (OmniApi.settled (net (requests log) GET)) as [err | exportData].
  { rewrite on_error_eq. subst started failed. cbn. now rewrite <- !app_assoc. }
  destruct (import_request target_id exportData) as [err | data].
  { rewrite on_error_eq. subst started failed. cbn. now rewrite <- !app_assoc. }
  rewrite importDashboard_eq, requests_set_state, requests_fetch,
    !requests_set_state.
  destruct (OmniApi.settled _) as [err | importResult].
  { rewrite on_error_eq. subst started failed. cbn. now rewrite <- !app_assoc. }
  unfold new_dashboard_text.
  destruct (new_dashboard_id importResult) as [err | dashboardId].
  { rewrite on_error_eq. subst started failed. cbn. now rewrite <- !app_assoc. }
  destruct (Js.ToString dashboardId) as [err | text].
  { rewrite on_error_eq. subst started failed. cbn. now rewrite <- !app_assoc. }
  subst started. cbn. now rewrite <- !app_assoc.
Qed.

End Orchestrator.

(** ** Export-format version and payload of the import request *)

(** The schema of an import request is where the literal ["0.1"] is asked
    for. *)
Lemma DashboardImportRequest_version (data : Js.Value) :
  OmniApi.DashboardImportRequest data = true →
  Js.get data "exportVersion" = inr (Js.Str "0.1").
Proof.
  destruct data as [| | | | | |fields]; try discriminate. simpl.
  rewrite !andb_true_iff. intros [_ Hversion].
  destruct (Js.own_property fields "exportVersion"); try discriminate.
  simpl in Hversion. apply String.eqb_eq in Hversion. now subst.
Qed.

(** C1, as the description has it, fails: handed a request whose
    [exportVersion] is ["0.2"], which the schema refuses,
    [importDashboard] sends it to the target all the same, and returns
    what the target answers. *)
Lemma importDashboard_sends_version_0_2 :
  Js.get (Scenario.request "0.2") "exportVersion" = inr (Js.Str "0.2")
  ∧ OmniApi.DashboardImportRequest (Scenario.request "0.2") = false
  ∧ run (OmniApi.importDashboard Scenario.api (Scenario.request "0.2"))
        (Scenario.remote (Scenario.answers (Scenario.bundle "0.2"))
                         (Scenario.answers Scenario.import_result))
    = (inr Scenario.import_result,
       [Fetch (OmniApi.import_call Scenario.api (Scenario.request "0.2"))]).
Proof. repeat split; vm_compute; reflexivity. Qed.

(** C1, amended: [importDashboard] never looks at [exportVersion].
    Whatever request it is given, it makes exactly one call, the [POST] of
    that request to [/api/unstable/documents/import], and settles as that
    call does. *)
Theorem importDashboard_posts_every_request
    (this : OmniApi.OmniAPI) (data : Js.Value) (net : Http.Network)
    (log : list Event) :
  let POST := OmniApi.import_call this data in
  (OmniApi.importDashboard this data net log).2 = log ++ [Fetch POST]
  ∧ (OmniApi.importDashboard this data net log).1
    = OmniApi.settled (net (requests log) POST)
  ∧ Http.method_of POST = "POST"
  ∧ Http.url POST = OmniApi.baseUrl this +:+ "/api/unstable/documents/import"
  ∧ Http.body (Http.init POST) = Some (Http.JSON_stringify data).
Proof.
  intros POST. rewrite importDashboard_eq. repeat split.
Qed.

(** Reading a member of the object literal built by [import_request]. *)
Lemma import_request_object (target_id : string) (exportData : Js.Value) :
  Js.nullish exportData = false →
  ∃ dashboard document workbookModel,
    Js.get exportData "dashboard" = inr dashboard
    ∧ Js.get exportData "document" = inr document
    ∧ Js.get exportData "workbookModel" = inr workbookModel
    ∧ import_request target_id exportData
      = inr (Js.Object
               [ ("baseModelId", Js.Str target_id);
                 ("dashboard", dashboard);
                 ("document", document);
                 ("workbookModel", workbookModel);
                 ("exportVersion", Js.Str "0.1") ]).
Proof.
  intros Hvalue. unfold import_request.
  destruct exportData; try discriminate; simpl; eauto 10.
Qed.

(** A bundle that the export schema accepts is an object. *)
Lemma DashboardExportResponse_not_nullish (exportData : Js.Value) :
  OmniApi.DashboardExportResponse exportData = true →
  Js.nullish exportData = false.
Proof. now destruct exportData. Qed.

(** The calls of a run whose export returned a value that can be read.
    Here and below the outcome of the export call is taken at the log
    the run starts from: the three state updates that precede the call
    inside [handleMigration] have no part in it
    ([exportDashboard_outcome]). *)
Lemma handleMigration_requests_exported (config : Config.OmniConfig)
    (net : Http.Network) (source_id target_id : string) (log : list Event)
    (exportData data : Js.Value) :
  (OmniApi.exportDashboard (sourceApi config) source_id net log).1 = inr exportData →
  import_request target_id exportData = inr data →
  requests (handleMigration config source_id target_id net log).2
  = requests log
    ++ [OmniApi.export_call (sourceApi config) source_id;
        OmniApi.import_call (targetApi config) data].
Proof.
  rewrite exportDashboard_eq, handleMigration_eq. simpl.
  intros -> ->.
  repeat case_match; rewrite ?requests_app, <- ?app_assoc; reflexivity.
Qed.

(** C2, as the description has it, fails: the source exports a bundle of
    version ["0.2"], and the import request sent to the target says
    ["0.1"]. *)
Lemma handleMigration_relabels_version_0_2 :
  Js.get (Scenario.bundle "0.2") "exportVersion" = inr (Js.Str "0.2")
  ∧ requests
      (run (handleMigration Scenario.config "dash_123" Scenario.model_id)
           (Scenario.remote (Scenario.answers (Scenario.bundle "0.2"))
                            (Scenario.answers Scenario.import_result))).2
    = [ OmniApi.export_call (sourceApi Scenario.config) "dash_123";
        OmniApi.import_call (targetApi Scenario.config) (Scenario.request "0.1") ]
  ∧ Js.get (Scenario.request "0.1") "exportVersion" = inr (Js.Str "0.1").
Proof. repeat split; vm_compute; reflexivity. Qed.

(** C2, amended: whatever bundle the export returns, the import request
    sent to the target carries the literal ["0.1"] as its [exportVersion];
    the bundle's own [exportVersion] is not read. *)
Theorem import_request_version_is_literal (config : Config.OmniConfig)
    (net : Http.Network) (source_id target_id : string) (log : list Event)
    (exportData : Js.Value) :
  (OmniApi.exportDashboard (sourceApi config) source_id net log).1 = inr exportData →
  Js.nullish exportData = false →
  ∃ data,
    import_request target_id exportData = inr data
    ∧ requests (handleMigration config source_id target_id net log).2
      = requests log
        ++ [OmniApi.export_call (sourceApi config) source_id;
            OmniApi.import_call (targetApi config) data]
    ∧ Js.get data "exportVersion" = inr (Js.Str "0.1").
Proof.
  intros Hexport Hvalue.
  destruct (import_request_object target_id exportData Hvalue)
    as (dashboard & document & workbookModel & _ & _ & _ & Hdata).
  eexists. split; [exact Hdata |]. split.
  - now apply handleMigration_requests_exported with (exportData := exportData).
  - reflexivity.
Qed.

(** The source exports a bundle of version ["0.2"]. *)
Lemma import_request_version_is_literal_witness :
  ∃ data,
    import_request Scenario.model_id (Scenario.bundle "0.2") = inr data
    ∧ requests
        (handleMigration Scenario.config "dash_123" Scenario.model_id
           (Scenario.remote (Scenario.answers (Scenario.bundle "0.2"))
                            (Scenario.answers Scenario.import_result)) []).2
      = requests []
        ++ [OmniApi.export_call (sourceApi Scenario.config) "dash_123";
            OmniApi.import_call (targetApi Scenario.config) data]
    ∧ Js.get data "exportVersion" = inr (Js.Str "0.1").
Proof.
  apply (import_request_version_is_literal Scenario.config
           (Scenario.remote (Scenario.answers (Scenario.bundle "0.2"))
                            (Scenario.answers Scenario.import_result))
           "dash_123" Scenario.model_id [] (Scenario.bundle "0.2"));
    vm_compute; reflexivity.
Defined.

(** C3: for every bundle the export schema accepts and every target model
    id, the import request built from them holds the bundle's [dashboard],
    [document] and [workbookModel] as they are, beside the model id, and
    it is that request which is sent to the target. *)
Theorem import_request_passes_payload_through (config : Config.OmniConfig)
    (net : Http.Network) (source_id target_id : string) (log : list Event)
    (exportData : Js.Value) :
  (OmniApi.exportDashboard (sourceApi config) source_id net log).1 = inr exportData →
  OmniApi.DashboardExportResponse exportData = true →
  ∃ data,
    import_request target_id exportData = inr data
    ∧ requests (handleMigration config source_id target_id net log).2
      = requests log
        ++ [OmniApi.export_call (sourceApi config) source_id;
            OmniApi.import_call (targetApi config) data]
    ∧ Js.get data "dashboard" = Js.get exportData "dashboard"
    ∧ Js.get data "document" = Js.get exportData "document"
    ∧ Js.get data "workbookModel" = Js.get exportData "workbookModel"
    ∧ Js.get data "baseModelId" = inr (Js.Str target_id).
Proof.
  intros Hexport Hvalid.
  apply DashboardExportResponse_not_nullish in Hvalid.
  destruct (import_request_object target_id exportData Hvalid)
    as (dashboard & document & workbookModel & Hd & Hdoc & Hw & Hdata).
  eexists. split; [exact Hdata |]. split.
  - now apply handleMigration_requests_exported with (exportData := exportData).
  - rewrite Hd, Hdoc, Hw. repeat split.
Qed.

(** The source exports a bundle of version ["0.1"]. *)
Lemma import_request_passes_payload_through_witness :
  ∃ data,
    import_request Scenario.model_id (Scenario.bundle "0.1") = inr data
    ∧ requests
        (handleMigration Scenario.config "dash_123" Scenario.model_id
           (Scenario.remote (Scenario.answers (Scenario.bundle "0.1"))
                            (Scenario.answers Scenario.import_result)) []).2
      = requests []
        ++ [OmniApi.export_call (sourceApi Scenario.config) "dash_123";
            OmniApi.import_call (targetApi Scenario.config) data]
    ∧ Js.get data "dashboard" = Js.get (Scenario.bundle "0.1") "dashboard"
    ∧ Js.get data "document" = Js.get (Scenario.bundle "0.1") "document"
    ∧ Js.get data "workbookModel" = Js.get (Scenario.bundle "0.1") "workbookModel"
    ∧ Js.get data "baseModelId" = inr (Js.Str Scenario.model_id).
Proof.
  apply (import_request_passes_payload_through Scenario.config
           (Scenario.remote (Scenario.answers (Scenario.bundle "0.1"))
                            (Scenario.answers Scenario.import_result))
           "dash_123" Scenario.model_id [] (Scenario.bundle "0.1"));
    vm_compute; reflexivity.
Defined.

(** ** The sequence of calls and the final state of a run *)

Lemma state_of_app (log events : list Event) :
  state_of (log ++ events) = foldl apply_update (state_of log) (updates events).
Proof. unfold state_of. now rewrite updates_app, foldl_app. Qed.

(** Every run returns normally: whatever is thrown inside is caught. *)
Lemma handleMigration_returns (config : Config.OmniConfig) (net : Http.Network)
    (source_id target_id : string) (log : list Event) :
  (handleMigration config source_id target_id net log).1 = inr tt.
Proof. now rewrite handleMigration_eq. Qed.

(** The calls of any run: the export call, followed by at most one
    import call. *)
Lemma handleMigration_requests_shape (config : Config.OmniConfig)
    (net : Http.Network) (source_id target_id : string) (log : list Event) :
  let GET := OmniApi.export_call (sourceApi config) source_id in
  let final := (handleMigration config source_id target_id net log).2 in
  requests final = requests log ++ [GET]
  ∨ ∃ data,
      requests final
      = requests log ++ [GET; OmniApi.import_call (targetApi config) data].
Proof.
  intros GET final. subst final. rewrite handleMigration_eq. simpl. fold GET.
  repeat case_match;
    rewrite ?requests_app, <- ?app_assoc; simpl; eauto.
Qed.




(** C5: in every run whose export call throws an error, the [GET] is the
    only call made, so no import is attempted, and the run ends with the
    failure status and the thrown error's message, as it is, for error
    text. *)
Theorem handleMigration_export_failure (config : Config.OmniConfig)
    (net : Http.Network) (source_id target_id : string) (log : list Event)
    (name message : string) :
  let final := (handleMigration config source_id target_id net log).2 in
  (OmniApi.exportDashboard (sourceApi config) source_id net log).1
  = inl (Js.ErrorObject name message) →
  requests final = requests log ++ [OmniApi.export_call (sourceApi config) source_id]
  ∧ status (state_of final) = "Migration failed"
  ∧ error (state_of final) = message.
Proof.
  intros final Hexport. subst final.
  rewrite handleMigration_eq. simpl.
  rewrite exportDashboard_eq in Hexport. simpl in Hexport. rewrite Hexport.
  rewrite !requests_app, !state_of_app. simpl.
  rewrite !app_nil_r. repeat split.
Qed.

(** The source refuses the export with a [detail]. *)
Lemma handleMigration_export_failure_witness :
  let final :=
    (handleMigration Scenario.config "dash_123" Scenario.model_id
       (Scenario.remote
          (Scenario.refuses "Not Found"
             (inr (Js.Object [("detail", Js.Str "Dashboard not found")])))
          (Scenario.answers Scenario.import_result)) []).2 in
  requests final
  = requests [] ++ [OmniApi.export_call (sourceApi Scenario.config) "dash_123"]
  ∧ status (state_of final) = "Migration failed"
  ∧ error (state_of final) = "Omni API Error: Dashboard not found".
Proof.
  apply (handleMigration_export_failure Scenario.config
           (Scenario.remote
              (Scenario.refuses "Not Found"
                 (inr (Js.Object [("detail", Js.Str "Dashboard not found")])))
              (Scenario.answers Scenario.import_result))
           "dash_123" Scenario.model_id [] "Error").
  vm_compute; reflexivity.
Defined.

(** What is thrown need not be an [Error]: the text shown is then the
    fixed one of line 60. *)
Lemma handleMigration_export_failure_value (config : Config.OmniConfig)
    (net : Http.Network) (source_id target_id : string) (log : list Event)
    (v : Js.Value) :
  (OmniApi.exportDashboard (sourceApi config) source_id net log).1
  = inl (Js.ThrownValue v) →
  error (state_of (handleMigration config source_id target_id net log).2)
  = "An unknown error occurred".
Proof.
  intros Hexport. rewrite handleMigration_eq. simpl.
  rewrite exportDashboard_eq in Hexport. simpl in Hexport. rewrite Hexport.
  now rewrite !state_of_app.
Qed.

(** ** Failures reported by the client *)

(** C6, as the description has it, fails: with a [detail] that is the
    empty string, the message ends with the status text of the response,
    not with that (empty) detail. *)
Lemma fetch_empty_detail_gives_status_text :
  let error := Js.Object [("detail", Js.Str "")] in
  Js.get error "detail" = inr (Js.Str "")
  ∧ (run (OmniApi.fetch Scenario.api "/api/unstable/documents/import" Http.no_options)
         (Scenario.remote (Scenario.refuses "Bad Request" (inr error))
                          (Scenario.answers Scenario.import_result))).1
    = inl (Js.new_Error "Omni API Error: Bad Request")
  ∧ Js.new_Error "Omni API Error: Bad Request"
    ≠ Js.new_Error ("Omni API Error: " +:+ "").
Proof.
  repeat split; try (vm_compute; reflexivity).
  vm_compute. discriminate.
Qed.

(** C6, amended: for a non-success response whose body parses to a value
    with a non-empty string [detail], the message is that detail after
    ["Omni API Error: "]; for one whose parsed body can be read and has no
    [detail], the message is the status text after the same prefix. *)
Theorem fetch_error_message (this : OmniApi.OmniAPI) (net : Http.Network)
    (endpoint : string) (options : Http.RequestInit) (log : list Event)
    (response : Http.Response) (error detail : Js.Value) :
  net (requests log) (OmniApi.call this endpoint options) = inr response →
  Http.ok response = false →
  Http.json response = inr error →
  Js.get error "detail" = inr detail →
  detail = Js.Undefined ∨ (∃ X, detail = Js.Str X ∧ X ≠ "") →
  (OmniApi.fetch this endpoint options net log).1
  = inl (Js.new_Error
           ("Omni API Error: "
            +:+ match detail with
                | Js.Str X => X
                | _ => Http.statusText response
                end)).
Proof.
  intros Hnet Hok Hjson Hdetail Hshape.
  rewrite fetch_eq. simpl. rewrite Hnet. simpl. rewrite Hok, Hjson, Hdetail. simpl.
  destruct Hshape as [-> | (X & -> & HX)]; [reflexivity |].
  unfold Js.or. simpl.
  destruct (String.eqb_spec X ""); [contradiction | reflexivity].
Qed.

(** A refusal carrying [detail]. *)
Lemma fetch_error_message_witness :
  (OmniApi.fetch Scenario.api "/api/unstable/documents/import" Http.no_options
     (Scenario.remote
        (Scenario.refuses "Not Found"
           (inr (Js.Object [("detail", Js.Str "Dashboard not found")])))
        (Scenario.answers Scenario.import_result)) []).1
  = inl (Js.new_Error ("Omni API Error: " +:+ "Dashboard not found")).
Proof.
  apply (fetch_error_message Scenario.api
           (Scenario.remote
              (Scenario.refuses "Not Found"
                 (inr (Js.Object [("detail", Js.Str "Dashboard not found")])))
              (Scenario.answers Scenario.import_result))
           "/api/unstable/documents/import" Http.no_options []
           {| Http.ok := false; Http.statusText := "Not Found";
              Http.json := inr (Js.Object [("detail", Js.Str "Dashboard not found")]) |}
           (Js.Object [("detail", Js.Str "Dashboard not found")])
           (Js.Str "Dashboard not found")).
  - vm_compute; reflexivity.
  - reflexivity.
  - reflexivity.
  - reflexivity.
  - right. exists "Dashboard not found". split; [reflexivity | discriminate].
Defined.

(** A body that parses to [null] has no [detail] to read: reading it
    throws, and that [TypeError] is what the caller gets. *)
Lemma fetch_null_error_body (this : OmniApi.OmniAPI) (net : Http.Network)
    (endpoint : string) (options : Http.RequestInit) (log : list Event)
    (response : Http.Response) :
  net (requests log) (OmniApi.call this endpoint options) = inr response →
  Http.ok response = false →
  Http.json response = inr Js.Null →
  (OmniApi.fetch this endpoint options net log).1
  = inl (Js.TypeError_read "null" "detail").
Proof.
  intros Hnet Hok Hjson.
  rewrite fetch_eq. simpl. rewrite Hnet. simpl. now rewrite Hok, Hjson.
Qed.

(** C7: for a non-success response whose body is not JSON, what [json()]
    throws leaves [fetch] as it is, after the one call has been made: it
    reaches the caller.  The caller, [handleMigration], catches whatever
    is thrown and returns normally. *)
Theorem fetch_propagates_unreadable_body (this : OmniApi.OmniAPI)
    (net : Http.Network) (endpoint : string) (options : Http.RequestInit)
    (log : list Event) (response : Http.Response) (err : Js.Thrown) :
  net (requests log) (OmniApi.call this endpoint options) = inr response →
  Http.ok response = false →
  Http.json response = inl err →
  OmniApi.fetch this endpoint options net log
  = (inl err, log ++ [Fetch (OmniApi.call this endpoint options)])
  ∧ ∀ config source_id target_id log',
      (handleMigration config source_id target_id net log').1 = inr tt.
Proof.
  intros Hnet Hok Hjson. split.
  - rewrite fetch_eq. rewrite Hnet. simpl. now rewrite Hok, Hjson.
  - intros. apply handleMigration_returns.
Qed.

(** A refusal whose body is an HTML page. *)
Lemma fetch_propagates_unreadable_body_witness :
  let net :=
    Scenario.remote (Scenario.refuses "Bad Gateway" (inl Scenario.not_json))
                    (Scenario.answers Scenario.import_result) in
  OmniApi.fetch Scenario.api "/api/unstable/documents/d1/export" Http.no_options net []
  = (inl Scenario.not_json,
     [] ++ [Fetch (OmniApi.call Scenario.api "/api/unstable/documents/d1/export"
                     Http.no_options)])
  ∧ ∀ config source_id target_id log',
      (handleMigration config source_id target_id net log').1 = inr tt.
Proof.
  intros net.
  apply (fetch_propagates_unreadable_body Scenario.api net
           "/api/unstable/documents/d1/export" Http.no_options []
           {| Http.ok := false; Http.statusText := "Bad Gateway";
              Http.json := inl Scenario.not_json |} Scenario.not_json).
  - vm_compute; reflexivity.
  - reflexivity.
  - reflexivity.
Defined.

(** ** Request headers *)

(** C8, as the description has it, fails: headers that the caller
    supplies in a [Headers] instance are not merged.  The instance has no
    own enumerable property, so the spread of line 39 copies nothing: the
    caller's [X-Trace] is not sent and its [Authorization] does not
    override the client's. *)
Lemma fetch_drops_headers_instance :
  let options :=
    {| Http.method := None;
       Http.headers :=
         Some (Http.HeadersInstance
                 [("Authorization", "Bearer other-token"); ("X-Trace", "1")]);
       Http.body := None |} in
  (run (OmniApi.fetch Scenario.api "/api/unstable/documents/d1/export" options)
       (Scenario.remote (Scenario.answers (Scenario.bundle "0.1"))
                        (Scenario.answers Scenario.import_result))).2
  = [Fetch
       (Http.mkRequest "https://target.omniapp.co/api/unstable/documents/d1/export"
          {| Http.method := None;
             Http.headers :=
               Some (Http.HeadersRecord
                       {[ "Authorization" := Js.Str "Bearer target-token";
                          "Content-Type" := Js.Str "application/json" ]});
             Http.body := None |})].
Proof. vm_compute. reflexivity. Qed.

(** C8, amended: when the caller supplies no headers, or supplies them
    as a plain record, the headers of the call are the client's
    [Authorization] and [Content-Type] with the caller's written over
    them: a header the caller supplies has the caller's value, the two of
    the client keep theirs otherwise, and no other header is sent. *)
Theorem fetch_headers_last_write_wins (this : OmniApi.OmniAPI)
    (net : Http.Network) (endpoint : string) (options : Http.RequestInit)
    (log : list Event) (caller : gmap string Js.Value) :
  (Http.headers options = None ∧ caller = ∅)
  ∨ Http.headers options = Some (Http.HeadersRecord caller) →
  ∃ sent : gmap string Js.Value,
    (OmniApi.fetch this endpoint options net log).2
    = log ++ [Fetch (Http.mkRequest (OmniApi.baseUrl this +:+ endpoint)
                       {| Http.method := Http.method options;
                          Http.headers := Some (Http.HeadersRecord sent);
                          Http.body := Http.body options |})]
    ∧ ∀ name : string,
        sent !! name
        = match caller !! name with
          | Some value => Some value
          | None =>
              if decide (name = "Authorization")
              then Some (Js.Str ("Bearer " +:+ OmniApi.token this))
              else if decide (name = "Content-Type")
                   then Some (Js.Str "application/json")
                   else None
          end.
Proof.
  intros Hcaller.
  assert (Http.own_enumerable (Http.headers options) = caller) as Hown.
  { destruct Hcaller as [[-> ->] | ->]; reflexivity. }
  eexists. split.
  - rewrite fetch_eq. unfold OmniApi.call, OmniApi.fetch_init. rewrite Hown.
    reflexivity.
  - intros name. unfold OmniApi.spread. rewrite lookup_union.
    destruct (caller !! name) as [value |] eqn:Hname; simpl.
    + apply union_Some_l.
    + rewrite (left_id_L None (∪)), lookup_insert.
      destruct (decide ("Authorization" = name)) as [<- | Hne].
      * now rewrite decide_True.
      * rewrite decide_False by congruence. simpl.
        rewrite lookup_singleton.
        destruct (decide ("Content-Type" = name)) as [<- | Hne'].
        -- now rewrite decide_True.
        -- now rewrite decide_False by congruence.
Qed.

(** The caller supplies a record with its own [Authorization] and an
    [X-Trace]. *)
Lemma fetch_headers_last_write_wins_witness :
  let caller : gmap string Js.Value :=
    {[ "Authorization" := Js.Str "Bearer other-token";
       "X-Trace" := Js.Str "1" ]} in
  let options :=
    {| Http.method := None;
       Http.headers := Some (Http.HeadersRecord caller);
       Http.body := None |} in
  ∃ sent : gmap string Js.Value,
    (OmniApi.fetch Scenario.api "/api/unstable/documents/d1/export" options
       (Scenario.remote (Scenario.answers (Scenario.bundle "0.1"))
                        (Scenario.answers Scenario.import_result)) []).2
    = [Fetch (Http.mkRequest
                "https://target.omniapp.co/api/unstable/documents/d1/export"
                {| Http.method := None;
                   Http.headers := Some (Http.HeadersRecord sent);
                   Http.body := None |})]
    ∧ sent !! "Authorization" = Some (Js.Str "Bearer other-token")
    ∧ sent !! "X-Trace" = Some (Js.Str "1")
    ∧ sent !! "Content-Type" = Some (Js.Str "application/json").
Proof.
  intros caller options.
  destruct (fetch_headers_last_write_wins Scenario.api
              (Scenario.remote (Scenario.answers (Scenario.bundle "0.1"))
                               (Scenario.answers Scenario.import_result))
              "/api/unstable/documents/d1/export" options [] caller)
    as (sent & Hlog & Hsent).
  - right. reflexivity.
  - exists sent. split; [exact Hlog |].
    rewrite !Hsent. repeat split; vm_compute; reflexivity.
Defined.

(** ** Starting a migration from the page *)

(** Whatever happens next, a run starts with the export call. *)
Lemma handleMigration_requests_export_first (config : Config.OmniConfig)
    (net : Http.Network) (source_id target_id : string) (log : list Event) :
  ∃ rest,
    requests (handleMigration config source_id target_id net log).2
    = requests log ++ OmniApi.export_call (sourceApi config) source_id :: rest.
Proof.
  rewrite handleMigration_eq. simpl.
  repeat case_match;
    rewrite ?requests_app, <- ?app_assoc; simpl; eexists; reflexivity.
Qed.

(** C9, as the description has it, fails: with the target model id
    ["abc"], which is not UUID-shaped, the click starts the run, and both
    calls are made. *)
Lemma start_migration_with_unshaped_model_id :
  let log :=
    session Scenario.config
      (Scenario.remote (Scenario.answers (Scenario.bundle "0.1"))
                       (Scenario.answers Scenario.import_result))
      [ChangeSource "dash_123"; ChangeTarget "abc"; ClickStartMigration] in
  OmniApi.uuid_shaped "abc" = false
  ∧ targetModelId (state_of log) = "abc"
  ∧ requests log
    = [ OmniApi.export_call (sourceApi Scenario.config) "dash_123";
        OmniApi.import_call (targetApi Scenario.config)
          (Scenario.request_for "abc" "0.1") ].
Proof. repeat split; vm_compute; reflexivity. Qed.

(** C9, amended: on the rendered form, a click on the button starts a
    run, beginning with the export call, exactly when the source dashboard
    id and the target model id are both non-empty, whatever the shape of
    the latter; when either is empty the click changes nothing and no
    call is made. *)
Theorem start_migration_needs_both_ids (config : Config.OmniConfig)
    (net : Http.Network) (log : list Event) :
  let st := state_of log in
  let after := act config net log ClickStartMigration in
  (sourceDashboardId st = "" ∨ targetModelId st = "" → after = log)
  ∧ (configError st = "" ∧ sourceDashboardId st ≠ "" ∧ targetModelId st ≠ "" →
     after
     = (handleMigration config (sourceDashboardId st) (targetModelId st) net log).2
     ∧ ∃ rest,
         requests after
         = requests log
           ++ OmniApi.export_call (sourceApi config) (sourceDashboardId st) :: rest).
Proof.
  intros st after. subst after. unfold act, render. fold st. split.
  - intros Hempty. destruct (negb _); [reflexivity |].
    destruct Hempty as [-> | ->]; simpl; [reflexivity |].
    now rewrite orb_true_r.
  - intros (Hconfig & Hsource & Htarget).
    rewrite Hconfig. simpl.
    apply String.eqb_neq in Hsource, Htarget.
    unfold Js.not_str. rewrite Hsource, Htarget. simpl.
    split; [reflexivity |]. apply handleMigration_requests_export_first.
Qed.

(** A click with the target still empty, then one with the target
    ["abc"]. *)
Lemma start_migration_needs_both_ids_witness :
  let net :=
    Scenario.remote (Scenario.answers (Scenario.bundle "0.1"))
                    (Scenario.answers Scenario.import_result) in
  let typed :=
    session Scenario.config net [ChangeSource "dash_123"; ChangeTarget "abc"] in
  let half := session Scenario.config net [ChangeSource "dash_123"] in
  act Scenario.config net half ClickStartMigration = half
  ∧ act Scenario.config net typed ClickStartMigration
    = (handleMigration Scenario.config "dash_123" "abc" net typed).2.
Proof.
  intros net typed half. split.
  - apply (start_migration_needs_both_ids Scenario.config net half).
    right. vm_compute. reflexivity.
  - apply (start_migration_needs_both_ids Scenario.config net typed).
    repeat split; vm_compute; discriminate.
Defined.

(** ** Configuration *)

Lemma append_nil_r (s : string) : s +:+ "" = s.
Proof.
  induction s as [| c s IH]; [reflexivity |].
  change (String c (s +:+ "") = String c s). now rewrite IH.
Qed.

Lemma append_assoc (s1 s2 s3 : string) : (s1 +:+ s2) +:+ s3 = s1 +:+ s2 +:+ s3.
Proof.
  induction s1 as [| c s1 IH]; [reflexivity |].
  change (String c ((s1 +:+ s2) +:+ s3) = String c (s1 +:+ s2 +:+ s3)).
  now rewrite IH.
Qed.

(** Every part of a joined text occurs in it. *)
Lemma join_contains (sep : string) (parts : list string) (part : string) :
  part ∈ parts →
  ∃ before after, Js.join sep parts = before +:+ part +:+ after.
Proof.
  unfold Js.join. induction parts as [| p rest IH]; intros Hin.
  - now apply elem_of_nil in Hin.
  - apply elem_of_cons in Hin as [-> | Hin].
    + destruct rest as [| q rest].
      * exists "", "". symmetry. apply (append_nil_r p).
      * exists "", (sep +:+ String.concat sep (q :: rest)). reflexivity.
    + destruct (IH Hin) as (before & after & Hjoin).
      destruct rest as [| q rest]; [now apply elem_of_nil in Hin |].
      exists (p +:+ sep +:+ before), after.
      change (String.concat sep (p :: q :: rest))
        with (p +:+ sep +:+ String.concat sep (q :: rest)).
      now rewrite Hjoin, !append_assoc.
Qed.

Lemma missing_iff (process_env : gmap string string) (name : string) :
  Config.missing process_env name
  ↔ Js.not_str (Config.env_or_empty process_env name) = true.
Proof.
  unfold Config.missing, Config.env_or_empty, Js.or_str, Js.not_str.
  destruct (process_env !! name) as [value |]; simpl.
  - destruct (String.eqb_spec value "") as [-> | Hne]; simpl.
    + intuition.
    + apply String.eqb_neq in Hne. rewrite Hne.
      apply String.eqb_neq in Hne.
      split; [intros [? | ?]; congruence | discriminate].
  - intuition.
Qed.

Lemma elem_of_push_if_missing (setting name : string) (vars : list string)
    (x : string) :
  x ∈ Config.push_if_missing setting name vars
  ↔ x ∈ vars ∨ (x = name ∧ Js.not_str setting = true).
Proof.
  unfold Config.push_if_missing. destruct (Js.not_str setting).
  - rewrite elem_of_app, list_elem_of_singleton. intuition.
  - intuition. discriminate.
Qed.

(** The array [missingVars] holds the names of the missing settings, and
    no other. *)
Lemma elem_of_missing_vars (process_env : gmap string string) (name : string) :
  name ∈ Config.required →
  name ∈ Config.missing_vars (Config.OMNI_CONFIG process_env)
  ↔ Config.missing process_env name.
Proof.
  intros Hrequired. rewrite missing_iff.
  unfold Config.missing_vars. rewrite !elem_of_push_if_missing. simpl.
  unfold Config.required in Hrequired.
  rewrite !elem_of_cons, elem_of_nil in Hrequired.
  destruct Hrequired as [-> | [-> | [-> | [-> | []]]]];
    (split;
     [ intros [[[[Hin | [? ?]] | [? ?]] | [? ?]] | [? ?]];
       [ now apply elem_of_nil in Hin | congruence .. ]
     | tauto ]).
Qed.

(** Once the configuration error is shown, no action changes the page. *)
Lemma act_configuration_error (config : Config.OmniConfig) (net : Http.Network)
    (log : list Event) (a : Action) :
  Js.not_str (configError (state_of log)) = false →
  act config net log a = log.
Proof. intros Hshown. unfold act, render. now rewrite Hshown. Qed.

Lemma session_configuration_error (config : Config.OmniConfig) (net : Http.Network)
    (actions : list Action) (log : list Event) :
  Js.not_str (configError (state_of log)) = false →
  foldl (act config net) log actions = log.
Proof.
  intros Hshown. induction actions as [| a actions IH]; [reflexivity |].
  simpl. now rewrite act_configuration_error.
Qed.

(** C10: when one of the four settings is missing, validation throws an
    error whose message lists the variable of every missing setting (and
    of no other); the page shows that message from its mount on, and
    whatever the user then does changes nothing: no call is ever made. *)
Theorem missing_setting_blocks_migration (process_env : gmap string string)
    (net : Http.Network) (actions : list Action) :
  let config := Config.OMNI_CONFIG process_env in
  (∃ name, name ∈ Config.required ∧ Config.missing process_env name) →
  ∃ (names : list string) (message : string),
    (∀ name, name ∈ Config.required →
             (name ∈ names ↔ Config.missing process_env name))
    ∧ message = "Missing required environment variables: " +:+ Js.join ", " names
    ∧ (∀ name, name ∈ names → ∃ before after, message = before +:+ name +:+ after)
    ∧ Config.validateOmniConfig config = inl (Js.new_Error message)
    ∧ render (state_of (mount config net)) = ConfigurationError message
    ∧ session config net actions = mount config net
    ∧ requests (session config net actions) = [].
Proof.
  intros config (name & Hrequired & Hmissing).
  exists (Config.missing_vars config). eexists.
  split; [intros; now apply elem_of_missing_vars |].
  split; [reflexivity |].
  split.
  { intros x Hx. destruct (join_contains ", " _ _ Hx) as (before & after & ->).
    exists ("Missing required environment variables: " +:+ before), after.
    now rewrite append_assoc. }
  apply elem_of_missing_vars in Hmissing; [| exact Hrequired].
  assert (Config.validateOmniConfig config
          = inl (Js.new_Error
                   ("Missing required environment variables: "
                    +:+ Js.join ", " (Config.missing_vars config)))) as Hthrown.
  { unfold Config.validateOmniConfig. fold config in Hmissing.
    destruct (Config.missing_vars config) eqn:Hvars; [| reflexivity].
    now apply elem_of_nil in Hmissing. }
  assert (mount config net
          = [SetState "configError"
               ("Missing required environment variables: "
                +:+ Js.join ", " (Config.missing_vars config))]) as Hmount.
  { unfold mount, run, mount_effect, try_catch, mbind, Async_bind, lift.
    now rewrite Hthrown. }
  split; [exact Hthrown |].
  split; [now rewrite Hmount |].
  assert (session config net actions = mount config net) as Hsession.
  { unfold session. apply session_configuration_error. now rewrite Hmount. }
  split; [exact Hsession |].
  now rewrite Hsession, Hmount.
Qed.

(** An environment that sets the two URLs and neither token. *)
Lemma missing_setting_blocks_migration_witness :
  ∃ (names : list string) (message : string),
    names = ["SOURCE_OMNI_API_TOKEN"; "TARGET_OMNI_API_TOKEN"]
    ∧ message
      = "Missing required environment variables: SOURCE_OMNI_API_TOKEN, TARGET_OMNI_API_TOKEN"
    ∧ Config.validateOmniConfig (Config.OMNI_CONFIG Scenario.process_env_without_tokens)
      = inl (Js.new_Error message)
    ∧ requests
        (session (Config.OMNI_CONFIG Scenario.process_env_without_tokens)
           (Scenario.remote (Scenario.answers (Scenario.bundle "0.1"))
                            (Scenario.answers Scenario.import_result))
           [ChangeSource "dash_123"; ChangeTarget Scenario.model_id;
            ClickStartMigration])
      = [].
Proof.
  destruct (missing_setting_blocks_migration Scenario.process_env_without_tokens
              (Scenario.remote (Scenario.answers (Scenario.bundle "0.1"))
                               (Scenario.answers Scenario.import_result))
              [ChangeSource "dash_123"; ChangeTarget Scenario.model_id;
               ClickStartMigration])
    as (names & message & _ & _ & _ & Hthrown & _ & _ & Hcalls).
  - exists "SOURCE_OMNI_API_TOKEN". split.
    + unfold Config.required. rewrite !elem_of_cons. tauto.
    + left. vm_compute. reflexivity.
  - vm_compute in Hthrown. injection Hthrown as <-.
    eexists _, _. split; [reflexivity |]. split; [reflexivity |].
    split; [reflexivity | exact Hcalls].
Defined.

(** * Further properties of the client *)

(** X1: on a success response [fetch] hands back what [json()] settles
    to, value or thrown, after its one call; the body is not looked
    into, so a body with a [detail] member is returned like any other. *)
Theorem fetch_success_returns_body (this : OmniApi.OmniAPI) (net : Http.Network)
    (endpoint : string) (options : Http.RequestInit) (log : list Event)
    (response : Http.Response) :
  net (requests log) (OmniApi.call this endpoint options) = inr response →
  Http.ok response = true →
  OmniApi.fetch this endpoint options net log
  = (Http.json response, log ++ [Fetch (OmniApi.call this endpoint options)]).
Proof.
  intros Hnet Hok. rewrite fetch_eq, Hnet. simpl. now rewrite Hok.
Qed.

(** A success whose body has a [detail]. *)
Lemma fetch_success_returns_body_witness :
  OmniApi.fetch Scenario.api "/api/unstable/documents/d1/export" Http.no_options
    (Scenario.remote (Scenario.answers Scenario.validation_errors)
                     (Scenario.answers Scenario.import_result)) []
  = (inr Scenario.validation_errors,
     [] ++ [Fetch (OmniApi.call Scenario.api "/api/unstable/documents/d1/export"
                     Http.no_options)]).
Proof.
  apply (fetch_success_returns_body Scenario.api
           (Scenario.remote (Scenario.answers Scenario.validation_errors)
                            (Scenario.answers Scenario.import_result))
           "/api/unstable/documents/d1/export" Http.no_options []
           {| Http.ok := true; Http.statusText := "OK";
              Http.json := inr Scenario.validation_errors |}).
  - vm_compute; reflexivity.
  - reflexivity.
Defined.

(** X2: when the runtime's [fetch] itself rejects, [fetch] throws what it
    rejected with, and the one call is not repeated. *)
Theorem fetch_propagates_rejection (this : OmniApi.OmniAPI) (net : Http.Network)
    (endpoint : string) (options : Http.RequestInit) (log : list Event)
    (err : Js.Thrown) :
  net (requests log) (OmniApi.call this endpoint options) = inl err →
  OmniApi.fetch this endpoint options net log
  = (inl err, log ++ [Fetch (OmniApi.call this endpoint options)]).
Proof. intros Hnet. now rewrite fetch_eq, Hnet. Qed.

(** The connection fails. *)
Lemma fetch_propagates_rejection_witness :
  OmniApi.fetch Scenario.api "/api/unstable/documents/d1/export" Http.no_options
    (Scenario.remote (inl (Js.ErrorObject "TypeError" "Failed to fetch"))
                     (Scenario.answers Scenario.import_result)) []
  = (inl (Js.ErrorObject "TypeError" "Failed to fetch"),
     [] ++ [Fetch (OmniApi.call Scenario.api "/api/unstable/documents/d1/export"
                     Http.no_options)]).
Proof.
  apply (fetch_propagates_rejection Scenario.api
           (Scenario.remote (inl (Js.ErrorObject "TypeError" "Failed to fetch"))
                            (Scenario.answers Scenario.import_result))
           "/api/unstable/documents/d1/export" Http.no_options []).
  vm_compute; reflexivity.
Defined.

(** X3: a [detail] that is there but falsy ([null], [false], [0], the
    empty string) is passed over: the message ends with the status
    text. *)
Theorem fetch_falsy_detail_gives_status_text (this : OmniApi.OmniAPI)
    (net : Http.Network) (endpoint : string) (options : Http.RequestInit)
    (log : list Event) (response : Http.Response) (error detail : Js.Value) :
  net (requests log) (OmniApi.call this endpoint options) = inr response →
  Http.ok response = false →
  Http.json response = inr error →
  Js.get error "detail" = inr detail →
  Js.ToBoolean detail = false →
  (OmniApi.fetch this endpoint options net log).1
  = inl (Js.new_Error ("Omni API Error: " +:+ Http.statusText response)).
Proof.
  intros Hnet Hok Hjson Hdetail Hfalsy.
  rewrite fetch_eq, Hnet. simpl. rewrite Hok, Hjson, Hdetail. simpl.
  unfold Js.or. now rewrite Hfalsy.
Qed.

(** A refusal whose [detail] is [null]. *)
Lemma fetch_falsy_detail_gives_status_text_witness :
  (OmniApi.fetch Scenario.api "/api/unstable/documents/import" Http.no_options
     (Scenario.remote
        (Scenario.refuses "Forbidden" (inr (Js.Object [("detail", Js.Null)])))
        (Scenario.answers Scenario.import_result)) []).1
  = inl (Js.new_Error ("Omni API Error: " +:+ "Forbidden")).
Proof.
  apply (fetch_falsy_detail_gives_status_text Scenario.api
           (Scenario.remote
              (Scenario.refuses "Forbidden" (inr (Js.Object [("detail", Js.Null)])))
              (Scenario.answers Scenario.import_result))
           "/api/unstable/documents/import" Http.no_options []
           {| Http.ok := false; Http.statusText := "Forbidden";
              Http.json := inr (Js.Object [("detail", Js.Null)]) |}
           (Js.Object [("detail", Js.Null)]) Js.Null).
  - vm_compute; reflexivity.
  - reflexivity.
  - reflexivity.
  - reflexivity.
  - reflexivity.
Defined.

(** A list of objects, none with a [toString] of its own, converts
    element by element to ["[object Object]"]. *)
Lemma traverse_plain_objects (objects : list (list (string * Js.Value))) :
  Forall (λ fields, Js.has_own_property fields "toString" = false) objects →
  Js.traverse (λ item, match item with
                       | Js.Undefined | Js.Null => inr ""
                       | _ => Js.ToString item
                       end) (Js.Object <$> objects)
  = inr (replicate (length objects) "[object Object]").
Proof.
  induction 1 as [| fields objects Hplain _ IH]; [reflexivity |].
  simpl. rewrite Hplain.
  change (list_fmap _ _ Js.Object objects) with (Js.Object <$> objects).
  now rewrite IH.
Qed.

(** X4: a [detail] that is a list of objects, none of which has a member
    named [toString], is put into the message as text: every object
    comes out as ["[object Object]"], joined by commas, so what the
    server reported is not shown. *)
Theorem fetch_structured_detail_is_not_shown (this : OmniApi.OmniAPI)
    (net : Http.Network) (endpoint : string) (options : Http.RequestInit)
    (log : list Event) (response : Http.Response) (error detail : Js.Value)
    (objects : list (list (string * Js.Value))) :
  net (requests log) (OmniApi.call this endpoint options) = inr response →
  Http.ok response = false →
  Http.json response = inr error →
  Js.get error "detail" = inr detail →
  detail = Js.Array (Js.Object <$> objects) →
  Forall (λ fields, Js.has_own_property fields "toString" = false) objects →
  (OmniApi.fetch this endpoint options net log).1
  = inl (Js.new_Error
           ("Omni API Error: "
            +:+ Js.join "," (replicate (length objects) "[object Object]"))).
Proof.
  intros Hnet Hok Hjson Hdetail -> Hplain.
  rewrite fetch_eq, Hnet. simpl. rewrite Hok, Hjson, Hdetail. simpl.
  unfold Js.or. simpl.
  change (list_fmap _ _ Js.Object objects) with (Js.Object <$> objects).
  now rewrite (traverse_plain_objects objects Hplain).
Qed.

(** A validation failure with two entries. *)
Lemma fetch_structured_detail_is_not_shown_witness :
  (OmniApi.fetch Scenario.api "/api/unstable/documents/import" Http.no_options
     (Scenario.remote
        (Scenario.refuses "Unprocessable Entity" (inr Scenario.validation_errors))
        (Scenario.answers Scenario.import_result)) []).1
  = inl (Js.new_Error "Omni API Error: [object Object],[object Object]").
Proof.
  apply (fetch_structured_detail_is_not_shown Scenario.api
           (Scenario.remote
              (Scenario.refuses "Unprocessable Entity" (inr Scenario.validation_errors))
              (Scenario.answers Scenario.import_result))
           "/api/unstable/documents/import" Http.no_options []
           {| Http.ok := false; Http.statusText := "Unprocessable Entity";
              Http.json := inr Scenario.validation_errors |}
           Scenario.validation_errors
           (Js.Array
              [ Js.Object [("loc", Js.Array [Js.Str "body"; Js.Str "baseModelId"]);
                           ("msg", Js.Str "value is not a valid uuid")];
                Js.Object [("loc", Js.Array [Js.Str "body"; Js.Str "exportVersion"]);
                           ("msg", Js.Str "unexpected value")] ])
           [ [("loc", Js.Array [Js.Str "body"; Js.Str "baseModelId"]);
              ("msg", Js.Str "value is not a valid uuid")];
             [("loc", Js.Array [Js.Str "body"; Js.Str "exportVersion"]);
              ("msg", Js.Str "unexpected value")] ]).
  - vm_compute; reflexivity.
  - reflexivity.
  - reflexivity.
  - reflexivity.
  - reflexivity.
  - repeat constructor.
Defined.

(** The headers of a call made without headers of the caller's. *)
Lemma call_headers (this : OmniApi.OmniAPI) (endpoint : string)
    (options : Http.RequestInit) :
  Http.headers options = None →
  Http.headers (Http.init (OmniApi.call this endpoint options))
  = Some (Http.HeadersRecord
          {[ "Authorization" := Js.Str ("Bearer " +:+ OmniApi.token this);
             "Content-Type" := Js.Str "application/json" ]}).
Proof.
  intros Hnone. simpl. rewrite Hnone. simpl. unfold OmniApi.spread.
  now rewrite (left_id_L ∅ (∪)).
Qed.

(** X5: [exportDashboard] makes exactly one call and settles as it does:
    a [GET] (no method is set) of
    [baseUrl/api/unstable/documents/<id>/export], without a body, whose
    headers are the client's two and nothing else.  The identifier goes
    into the path as it is, empty or not. *)
Theorem exportDashboard_call (this : OmniApi.OmniAPI) (dashboardId : string)
    (net : Http.Network) (log : list Event) :
  let GET := OmniApi.export_call this dashboardId in
  OmniApi.exportDashboard this dashboardId net log
  = (OmniApi.settled (net (requests log) GET), log ++ [Fetch GET])
  ∧ Http.method_of GET = "GET"
  ∧ Http.url GET
    = OmniApi.baseUrl this +:+ "/api/unstable/documents/" +:+ dashboardId +:+ "/export"
  ∧ Http.body (Http.init GET) = None
  ∧ Http.headers (Http.init GET)
    = Some (Http.HeadersRecord
            {[ "Authorization" := Js.Str ("Bearer " +:+ OmniApi.token this);
               "Content-Type" := Js.Str "application/json" ]}).
Proof.
  intros GET. split; [apply exportDashboard_eq |].
  do 3 (split; [reflexivity |]). now apply call_headers.
Qed.

(** The call of [importDashboard] carries the client's two headers and
    nothing else. *)
Lemma importDashboard_headers (this : OmniApi.OmniAPI) (data : Js.Value) :
  Http.headers (Http.init (OmniApi.import_call this data))
  = Some (Http.HeadersRecord
          {[ "Authorization" := Js.Str ("Bearer " +:+ OmniApi.token this);
             "Content-Type" := Js.Str "application/json" ]}).
Proof. now apply call_headers. Qed.

(** * Further properties of the orchestrator *)

(** X6: a run makes at most two calls and never repeats one.  Each call
    is either the [GET] of the export path on the source's base URL,
    bearing the source's token, or the [POST] of the import path on the
    target's base URL, bearing the target's token: neither token is sent
    to the other environment. *)
Theorem handleMigration_credentials (config : Config.OmniConfig)
    (net : Http.Network) (source_id target_id : string) (log : list Event) :
  ∃ calls,
    requests (handleMigration config source_id target_id net log).2
    = requests log ++ calls
    ∧ length calls ≤ 2
    ∧ ∀ r, r ∈ calls →
        (Http.method_of r = "GET"
         ∧ Http.url r
           = Config.baseUrl (Config.source config)
             +:+ "/api/unstable/documents/" +:+ source_id +:+ "/export"
         ∧ Http.headers (Http.init r)
           = Some (Http.HeadersRecord
                   {[ "Authorization"
                      := Js.Str ("Bearer " +:+ Config.token (Config.source config));
                      "Content-Type" := Js.Str "application/json" ]}))
        ∨ (Http.method_of r = "POST"
           ∧ Http.url r
             = Config.baseUrl (Config.target config)
               +:+ "/api/unstable/documents/import"
           ∧ Http.headers (Http.init r)
             = Some (Http.HeadersRecord
                     {[ "Authorization"
                        := Js.Str ("Bearer " +:+ Config.token (Config.target config));
                        "Content-Type" := Js.Str "application/json" ]})).
Proof.
  assert (∀ r, r = OmniApi.export_call (sourceApi config) source_id →
               Http.method_of r = "GET"
               ∧ Http.url r
                 = Config.baseUrl (Config.source config)
                   +:+ "/api/unstable/documents/" +:+ source_id +:+ "/export"
               ∧ Http.headers (Http.init r)
                 = Some (Http.HeadersRecord
                         {[ "Authorization"
                            := Js.Str ("Bearer " +:+ Config.token (Config.source config));
                            "Content-Type" := Js.Str "application/json" ]})) as Hget.
  { intros r ->. do 2 (split; [reflexivity |]). now apply call_headers. }
  assert (∀ r data, r = OmniApi.import_call (targetApi config) data →
               Http.method_of r = "POST"
               ∧ Http.url r
                 = Config.baseUrl (Config.target config)
                   +:+ "/api/unstable/documents/import"
               ∧ Http.headers (Http.init r)
                 = Some (Http.HeadersRecord
                         {[ "Authorization"
                            := Js.Str ("Bearer " +:+ Config.token (Config.target config));
                            "Content-Type" := Js.Str "application/json" ]})) as Hpost.
  { intros r data ->. do 2 (split; [reflexivity |]). now apply call_headers. }
  destruct (handleMigration_requests_shape config net source_id target_id log)
    as [Hcalls | (data & Hcalls)]; rewrite Hcalls; eexists; (split; [reflexivity |]).
  - split; [simpl; lia |]. intros r Hr.
    apply list_elem_of_singleton in Hr. left. now apply Hget.
  - split; [simpl; lia |]. intros r Hr.
    apply elem_of_cons in Hr as [Hr | Hr]; [left; now apply Hget |].
    apply list_elem_of_singleton in Hr. right. now apply (Hpost r data).
Qed.

(** X7: when the export succeeds and the import call throws an error, the
    run has made both calls, once each, and ends with the failure status
    and the error's message; the import is not tried again. *)
Theorem handleMigration_import_failure (config : Config.OmniConfig)
    (net : Http.Network) (source_id target_id : string) (log : list Event)
    (exportData data : Js.Value) (name message : string) :
  let GET := OmniApi.export_call (sourceApi config) source_id in
  let final := (handleMigration config source_id target_id net log).2 in
  (OmniApi.exportDashboard (sourceApi config) source_id net log).1 = inr exportData →
  import_request target_id exportData = inr data →
  (OmniApi.importDashboard (targetApi config) data net (log ++ [Fetch GET])).1
  = inl (Js.ErrorObject name message) →
  requests final
  = requests log ++ [GET; OmniApi.import_call (targetApi config) data]
  ∧ status (state_of final) = "Migration failed"
  ∧ error (state_of final) = message.
Proof.
  intros GET final Hexport Hdata Himport. split.
  { now apply handleMigration_requests_exported with (exportData := exportData). }
  subst final. rewrite handleMigration_eq. simpl.
  rewrite exportDashboard_eq in Hexport. simpl in Hexport. rewrite Hexport, Hdata.
  rewrite importDashboard_eq, requests_fetch in Himport. simpl in Himport.
  fold GET. rewrite Himport. rewrite !state_of_app. split; reflexivity.
Qed.

(** The target refuses the import. *)
Lemma handleMigration_import_failure_witness :
  let net :=
    Scenario.remote (Scenario.answers (Scenario.bundle "0.1"))
      (Scenario.refuses "Bad Request"
         (inr (Js.Object [("detail", Js.Str "Base model not found")]))) in
  let final :=
    (handleMigration Scenario.config "dash_123" Scenario.model_id net []).2 in
  requests final
  = requests []
    ++ [ OmniApi.export_call (sourceApi Scenario.config) "dash_123";
         OmniApi.import_call (targetApi Scenario.config) (Scenario.request "0.1") ]
  ∧ status (state_of final) = "Migration failed"
  ∧ error (state_of final) = "Omni API Error: Base model not found".
Proof.
  intros net final.
  apply (handleMigration_import_failure Scenario.config net
           "dash_123" Scenario.model_id [] (Scenario.bundle "0.1")
           (Scenario.request "0.1") "Error");
    vm_compute; reflexivity.
Defined.

(** X8: when the source answers the export with a success whose body is
    [null], no import is attempted: building the request throws on the
    first member read, and the run ends as failed with that [TypeError]'s
    message. *)
Theorem handleMigration_null_bundle (config : Config.OmniConfig)
    (net : Http.Network) (source_id target_id : string) (log : list Event) :
  let final := (handleMigration config source_id target_id net log).2 in
  (OmniApi.exportDashboard (sourceApi config) source_id net log).1 = inr Js.Null →
  requests final
  = requests log ++ [OmniApi.export_call (sourceApi config) source_id]
  ∧ status (state_of final) = "Migration failed"
  ∧ error (state_of final) = Js.message_of (Js.TypeError_read "null" "dashboard").
Proof.
  intros final Hexport. subst final. rewrite handleMigration_eq. simpl.
  rewrite exportDashboard_eq in Hexport. simpl in Hexport. rewrite Hexport.
  simpl. rewrite !requests_app, !state_of_app. simpl.
  rewrite !app_nil_r. repeat split.
Qed.

(** The source answers [null]. *)
Lemma handleMigration_null_bundle_witness :
  let final :=
    (handleMigration Scenario.config "dash_123" Scenario.model_id
       (Scenario.remote (Scenario.answers Js.Null)
                        (Scenario.answers Scenario.import_result)) []).2 in
  requests final
  = requests [] ++ [OmniApi.export_call (sourceApi Scenario.config) "dash_123"]
  ∧ status (state_of final) = "Migration failed"
  ∧ error (state_of final) = Js.message_of (Js.TypeError_read "null" "dashboard").
Proof.
  apply (handleMigration_null_bundle Scenario.config
           (Scenario.remote (Scenario.answers Js.Null)
                            (Scenario.answers Scenario.import_result))
           "dash_123" Scenario.model_id []).
  vm_compute; reflexivity.
Defined.

(** X9: when both calls succeed but the import result has no [dashboard]
    member, the run still ends as failed, with the [TypeError] of reading
    [dashboardId], although the import has been sent and accepted. *)
Theorem handleMigration_result_without_dashboard (config : Config.OmniConfig)
    (net : Http.Network) (source_id target_id : string) (log : list Event)
    (exportData data importResult : Js.Value) :
  let GET := OmniApi.export_call (sourceApi config) source_id in
  let final := (handleMigration config source_id target_id net log).2 in
  (OmniApi.exportDashboard (sourceApi config) source_id net log).1 = inr exportData →
  import_request target_id exportData = inr data →
  (OmniApi.importDashboard (targetApi config) data net (log ++ [Fetch GET])).1
  = inr importResult →
  Js.get importResult "dashboard" = inr Js.Undefined →
  requests final
  = requests log ++ [GET; OmniApi.import_call (targetApi config) data]
  ∧ status (state_of final) = "Migration failed"
  ∧ error (state_of final)
    = Js.message_of (Js.TypeError_read "undefined" "dashboardId").
Proof.
  intros GET final Hexport Hdata Himport Hdashboard. split.
  { now apply handleMigration_requests_exported with (exportData := exportData). }
  subst final. rewrite handleMigration_eq. simpl.
  rewrite exportDashboard_eq in Hexport. simpl in Hexport. rewrite Hexport, Hdata.
  rewrite importDashboard_eq, requests_fetch in Himport. simpl in Himport.
  fold GET. rewrite Himport. unfold new_dashboard_text, new_dashboard_id.
  rewrite Hdashboard. simpl.
  rewrite !state_of_app. split; reflexivity.
Qed.

(** The target answers the import with an empty object. *)
Lemma handleMigration_result_without_dashboard_witness :
  let net :=
    Scenario.remote (Scenario.answers (Scenario.bundle "0.1"))
                    (Scenario.answers (Js.Object [])) in
  let final :=
    (handleMigration Scenario.config "dash_123" Scenario.model_id net []).2 in
  requests final
  = requests []
    ++ [ OmniApi.export_call (sourceApi Scenario.config) "dash_123";
         OmniApi.import_call (targetApi Scenario.config) (Scenario.request "0.1") ]
  ∧ status (state_of final) = "Migration failed"
  ∧ error (state_of final)
    = Js.message_of (Js.TypeError_read "undefined" "dashboardId").
Proof.
  intros net final.
  apply (handleMigration_result_without_dashboard Scenario.config net
           "dash_123" Scenario.model_id [] (Scenario.bundle "0.1")
           (Scenario.request "0.1") (Js.Object []));
    vm_compute; reflexivity.
Defined.



(** X12: the status of the import step is set in a run exactly when the
    export call has returned a value; a run whose export throws never
    shows it. *)
Theorem handleMigration_importing_status (config : Config.OmniConfig)
    (net : Http.Network) (source_id target_id : string) (log : list Event) :
  ∃ events,
    (handleMigration config source_id target_id net log).2 = log ++ events
    ∧ (SetState "status" "Importing dashboard to target environment..." ∈ events
       ↔ ∃ exportData,
           (OmniApi.exportDashboard (sourceApi config) source_id net log).1
           = inr exportData).
Proof.
  rewrite handleMigration_eq, exportDashboard_eq. simpl.
  destruct (OmniApi.settled _) as [err | exportData] eqn:Hexport.
  - eexists. split; [now rewrite <- app_assoc |]. split.
    + intros Hin. simpl in Hin.
      repeat (apply elem_of_cons in Hin as [Hin | Hin]; [discriminate |]).
      now apply elem_of_nil in Hin.
    + intros [? ?]. discriminate.
  - assert (∀ tail,
              SetState "status" "Importing dashboard to target environment..."
              ∈ [SetState "status" "Starting migration...";
                 SetState "error" "";
                 SetState "status" "Exporting dashboard from source environment...";
                 Fetch (OmniApi.export_call (sourceApi config) source_id)]
                ++ SetState "status" "Importing dashboard to target environment..."
                   :: tail) as Hin.
    { intros tail. apply elem_of_app. right. apply elem_of_cons. now left. }
    repeat case_match; (eexists; split; [now rewrite <- app_assoc |]);
      (split; [eauto | intros _; apply Hin]).
Qed.

(** X13: the request a run builds has no [identifier] and no
    [folderPath], and the schema of import requests accepts it exactly
    when the target model id is UUID-shaped: with any other id the run
    sends a request its own schema refuses. *)
Theorem import_request_against_schema (target_id : string)
    (exportData data : Js.Value) :
  import_request target_id exportData = inr data →
  Js.get data "identifier" = inr Js.Undefined
  ∧ Js.get data "folderPath" = inr Js.Undefined
  ∧ OmniApi.DashboardImportRequest data = OmniApi.uuid_shaped target_id.
Proof.
  unfold import_request. intros Hdata.
  destruct (Js.get exportData "dashboard"); [discriminate |].
  destruct (Js.get exportData "document"); [discriminate |].
  destruct (Js.get exportData "workbookModel"); [discriminate |].
  injection Hdata as <-. do 2 (split; [reflexivity |]).
  simpl. now rewrite !andb_true_r.
Qed.

(** The request built for the model id ["abc"]. *)
Lemma import_request_against_schema_witness :
  Js.get (Scenario.request_for "abc" "0.1") "identifier" = inr Js.Undefined
  ∧ Js.get (Scenario.request_for "abc" "0.1") "folderPath" = inr Js.Undefined
  ∧ OmniApi.DashboardImportRequest (Scenario.request_for "abc" "0.1")
    = OmniApi.uuid_shaped "abc".
Proof.
  apply (import_request_against_schema "abc" (Scenario.bundle "0.1")).
  vm_compute; reflexivity.
Defined.

(** * Further properties of the configuration *)

(** X14: validation succeeds exactly when the four settings are all
    non-empty; it then returns [true], and it never returns anything
    else. *)
Theorem validateOmniConfig_complete (config : Config.OmniConfig) :
  (Config.validateOmniConfig config = inr true
   ↔ Config.baseUrl (Config.source config) ≠ ""
     ∧ Config.token (Config.source config) ≠ ""
     ∧ Config.baseUrl (Config.target config) ≠ ""
     ∧ Config.token (Config.target config) ≠ "")
  ∧ Config.validateOmniConfig config ≠ inr false.
Proof.
  unfold Config.validateOmniConfig, Config.missing_vars, Config.push_if_missing,
    Js.not_str.
  destruct (String.eqb_spec (Config.baseUrl (Config.source config)) "");
    destruct (String.eqb_spec (Config.token (Config.source config)) "");
    destruct (String.eqb_spec (Config.baseUrl (Config.target config)) "");
    destruct (String.eqb_spec (Config.token (Config.target config)) "");
    simpl; (split; [split; [try discriminate; tauto | tauto] | discriminate]).
Qed.

(** X15: the names in the error message are those of the required
    variables that are unset or empty, in the order source URL, source
    token, target URL, target token, each once. *)
Theorem missing_vars_in_order (process_env : gmap string string) :
  Config.missing_vars (Config.OMNI_CONFIG process_env)
  = List.filter (λ name, Js.not_str (Config.env_or_empty process_env name))
      Config.required.
Proof.
  unfold Config.missing_vars, Config.push_if_missing. simpl.
  destruct (Js.not_str (Config.env_or_empty process_env "NEXT_PUBLIC_SOURCE_OMNI_URL"));
    destruct (Js.not_str (Config.env_or_empty process_env "SOURCE_OMNI_API_TOKEN"));
    destruct (Js.not_str (Config.env_or_empty process_env "NEXT_PUBLIC_TARGET_OMNI_URL"));
    destruct (Js.not_str (Config.env_or_empty process_env "TARGET_OMNI_API_TOKEN"));
    reflexivity.
Qed.

(** X16: a variable set to the empty string counts as unset: the
    configuration read is the same either way. *)
Theorem OMNI_CONFIG_empty_is_unset (process_env : gmap string string)
    (name : string) :
  Config.OMNI_CONFIG (<[name := ""]> process_env)
  = Config.OMNI_CONFIG (delete name process_env).
Proof.
  assert (∀ key, Config.env_or_empty (<[name := ""]> process_env) key
                 = Config.env_or_empty (delete name process_env) key) as Hsame.
  { intros key. unfold Config.env_or_empty.
    destruct (decide (name = key)) as [-> | Hne].
    - now rewrite lookup_insert_eq, lookup_delete_eq.
    - now rewrite lookup_insert_ne, lookup_delete_ne. }
  unfold Config.OMNI_CONFIG. now rewrite !Hsame.
Qed.

(** X17: the configuration depends on the four required variables
    alone: setting any other variable leaves it as it was. *)
Theorem OMNI_CONFIG_other_variable (process_env : gmap string string)
    (name value : string) :
  name ∉ Config.required →
  Config.OMNI_CONFIG (<[name := value]> process_env)
  = Config.OMNI_CONFIG process_env.
Proof.
  intros Hother.
  assert (∀ key, key ∈ Config.required →
                 Config.env_or_empty (<[name := value]> process_env) key
                 = Config.env_or_empty process_env key) as Hsame.
  { intros key Hkey. unfold Config.env_or_empty.
    rewrite lookup_insert_ne; [reflexivity |]. intros ->. contradiction. }
  unfold Config.OMNI_CONFIG.
  rewrite !Hsame; [reflexivity | ..];
    unfold Config.required; rewrite !elem_of_cons; tauto.
Qed.

(** An unrelated variable. *)
Lemma OMNI_CONFIG_other_variable_witness :
  Config.OMNI_CONFIG (<["NODE_ENV" := "production"]> Scenario.process_env)
  = Config.OMNI_CONFIG Scenario.process_env.
Proof.
  apply (OMNI_CONFIG_other_variable Scenario.process_env "NODE_ENV" "production").
  unfold Config.required. rewrite !elem_of_cons, elem_of_nil.
  intros [? | [? | [? | [? | []]]]]; discriminate.
Defined.

(** * Further properties of the page *)

(** Mounting makes no call. *)
Lemma mount_requests (config : Config.OmniConfig) (net : Http.Network) :
  requests (mount config net) = [].
Proof.
  unfold mount, run, mount_effect, try_catch, mbind, Async_bind, lift.
  now destruct (Config.validateOmniConfig config).
Qed.

(** X18: with a complete configuration the mounted page shows the form,
    both inputs empty and the button disabled; nothing has been written
    to any cell and no call has been made. *)
Theorem mount_complete_configuration (config : Config.OmniConfig)
    (net : Http.Network) :
  Config.validateOmniConfig config = inr true →
  mount config net = []
  ∧ render (state_of (mount config net)) = Form "" "" true.
Proof.
  intros Hvalid.
  assert (mount config net = []) as ->; [| now split].
  unfold mount, run, mount_effect, try_catch, mbind, Async_bind, lift.
  now rewrite Hvalid.
Qed.

(** The four settings are there. *)
Lemma mount_complete_configuration_witness :
  mount Scenario.config
    (Scenario.remote (Scenario.answers (Scenario.bundle "0.1"))
                     (Scenario.answers Scenario.import_result)) = []
  ∧ render (state_of
              (mount Scenario.config
                 (Scenario.remote (Scenario.answers (Scenario.bundle "0.1"))
                                  (Scenario.answers Scenario.import_result))))
    = Form "" "" true.
Proof.
  apply (mount_complete_configuration Scenario.config).
  vm_compute; reflexivity.
Defined.

(** One action adds at most two calls, and none unless it is a click. *)
Lemma act_requests (config : Config.OmniConfig) (net : Http.Network)
    (log : list Event) (a : Action) :
  ∃ calls,
    requests (act config net log a) = requests log ++ calls
    ∧ length calls ≤ 2 * clicks [a].
Proof.
  unfold act. destruct (render (state_of log)) as [| ? ? disabled].
  { exists []. rewrite app_nil_r. split; [reflexivity | simpl; lia]. }
  destruct a as [value | value |].
  - exists []. unfold setSourceDashboardId, set_state. simpl.
    rewrite requests_set_state, app_nil_r. split; [reflexivity | lia].
  - exists []. unfold setTargetModelId, set_state. simpl.
    rewrite requests_set_state, app_nil_r. split; [reflexivity | lia].
  - destruct disabled.
    { exists []. rewrite app_nil_r. split; [reflexivity | simpl; lia]. }
    destruct (handleMigration_requests_shape config net
                (sourceDashboardId (state_of log)) (targetModelId (state_of log)) log)
      as [Hcalls | (data & Hcalls)]; rewrite Hcalls;
      eexists; (split; [reflexivity | simpl; lia]).
Qed.

Lemma clicks_app (actions actions' : list Action) :
  clicks (actions ++ actions') = clicks actions + clicks actions'.
Proof.
  induction actions as [| [| |] actions IH]; simpl; lia.
Qed.

(** The calls added by a sequence of actions. *)
Lemma actions_requests (config : Config.OmniConfig) (net : Http.Network)
    (actions : list Action) (log : list Event) :
  ∃ calls,
    requests (foldl (act config net) log actions) = requests log ++ calls
    ∧ length calls ≤ 2 * clicks actions.
Proof.
  revert log. induction actions as [| a actions IH]; intros log.
  - exists []. rewrite app_nil_r. split; [reflexivity | simpl; lia].
  - simpl foldl.
    destruct (IH (act config net log a)) as (later & Hlater & Hbound).
    destruct (act_requests config net log a) as (first & Hfirst & Hbound').
    exists (first ++ later). rewrite Hlater, Hfirst, <- app_assoc.
    split; [reflexivity |].
    change (a :: actions) with ([a] ++ actions).
    rewrite length_app, clicks_app. lia.
Qed.

(** X19: over a whole session the page makes at most two calls for each
    click on the button, whatever is typed in between and however the
    remote sides answer. *)
Theorem session_requests_bound (config : Config.OmniConfig) (net : Http.Network)
    (actions : list Action) :
  length (requests (session config net actions)) ≤ 2 * clicks actions.
Proof.
  unfold session.
  destruct (actions_requests config net actions (mount config net))
    as (calls & -> & Hbound).
  now rewrite mount_requests.
Qed.

(** X20: typing alone reaches neither environment: a session without a
    click on the button makes no call. *)
Theorem session_without_click (config : Config.OmniConfig) (net : Http.Network)
    (actions : list Action) :
  ClickStartMigration ∉ actions →
  requests (session config net actions) = [].
Proof.
  intros Hnone.
  assert (clicks actions = 0) as Hzero.
  { induction actions as [| a actions IH]; [reflexivity |].
    apply not_elem_of_cons in Hnone as [Hne Hnone].
    destruct a; simpl; [now apply IH | now apply IH | contradiction]. }
  unfold session.
  destruct (actions_requests config net actions (mount config net))
    as (calls & -> & Hbound).
  rewrite mount_requests, Hzero in *. simpl in *.
  destruct calls; [reflexivity | simpl in Hbound; lia].
Qed.

(** The user types both identifiers and stops there. *)
Lemma session_without_click_witness :
  requests
    (session Scenario.config
       (Scenario.remote (Scenario.answers (Scenario.bundle "0.1"))
                        (Scenario.answers Scenario.import_result))
       [ChangeSource "dash_123"; ChangeTarget Scenario.model_id])
  = [].
Proof.
  apply (session_without_click Scenario.config).
  rewrite !not_elem_of_cons. repeat split; try discriminate.
  apply not_elem_of_nil.
Defined.

(** X21: on the rendered form, what is typed into an input becomes the
    value of its cell and of nothing else; the button is then enabled
    exactly when both cells are non-empty. *)
Theorem typing_sets_one_cell (config : Config.OmniConfig) (net : Http.Network)
    (log : list Event) (value : string) :
  let st := state_of log in
  configError st = "" →
  state_of (act config net log (ChangeSource value))
  = {| sourceDashboardId := value; targetModelId := targetModelId st;
       status := status st; error := error st; configError := configError st |}
  ∧ state_of (act config net log (ChangeTarget value))
    = {| sourceDashboardId := sourceDashboardId st; targetModelId := value;
         status := status st; error := error st; configError := configError st |}
  ∧ render (state_of (act config net log (ChangeSource value)))
    = Form value (targetModelId st)
        (Js.not_str value || Js.not_str (targetModelId st))
  ∧ render (state_of (act config net log (ChangeTarget value)))
    = Form (sourceDashboardId st) value
        (Js.not_str (sourceDashboardId st) || Js.not_str value).
Proof.
  intros st Hconfig.
  assert (state_of (act config net log (ChangeSource value))
          = {| sourceDashboardId := value; targetModelId := targetModelId st;
               status := status st; error := error st;
               configError := configError st |}) as Hsource.
  { unfold act, render. fold st. rewrite Hconfig. simpl.
    unfold setSourceDashboardId, set_state. simpl.
    rewrite state_of_set_state. fold st. simpl. now rewrite Hconfig. }
  assert (state_of (act config net log (ChangeTarget value))
          = {| sourceDashboardId := sourceDashboardId st; targetModelId := value;
               status := status st; error := error st;
               configError := configError st |}) as Htarget.
  { unfold act, render. fold st. rewrite Hconfig. simpl.
    unfold setTargetModelId, set_state. simpl.
    rewrite state_of_set_state. fold st. simpl. now rewrite Hconfig. }
  rewrite Hsource, Htarget. unfold render. simpl. rewrite Hconfig. simpl.
  repeat split.
Qed.

(** Typing into the freshly mounted page. *)
Lemma typing_sets_one_cell_witness :
  let net :=
    Scenario.remote (Scenario.answers (Scenario.bundle "0.1"))
                    (Scenario.answers Scenario.import_result) in
  let log := mount Scenario.config net in
  render (state_of (act Scenario.config net log (ChangeSource "dash_123")))
  = Form "dash_123" "" true.
Proof.
  intros net log.
  destruct (typing_sets_one_cell Scenario.config net log "dash_123")
    as (_ & _ & Hrender & _).
  - vm_compute; reflexivity.
  - exact Hrender.
Defined.

(** X22: after the mount the configuration error is empty or is the
    message thrown by the validation; the fallback text of the effect's
    handler is never shown, since the validation throws nothing but an
    [Error]. *)
Theorem mount_configuration_error (config : Config.OmniConfig) (net : Http.Network) :
  configError (state_of (mount config net))
  = match Config.validateOmniConfig config with
    | inl err => Js.message_of err
    | inr _ => ""
    end
  ∧ configError (state_of (mount config net)) ≠ "Configuration error".
Proof.
  unfold mount, run, mount_effect, try_catch, mbind, Async_bind, lift.
  unfold Config.validateOmniConfig.
  destruct (Nat.ltb 0 (length (Config.missing_vars config))); simpl;
    split; try reflexivity; discriminate.
Qed.

(** * Values that do not convert to text *)

(** X23: a [detail] that is an object with a member named [toString]
    cannot be put into the message: the interpolation of line 45 throws,
    and what the caller gets from [fetch] is that [TypeError], not an
    error with the ["Omni API Error: "] prefix. *)
Theorem fetch_unconvertible_detail (this : OmniApi.OmniAPI)
    (net : Http.Network) (endpoint : string) (options : Http.RequestInit)
    (log : list Event) (response : Http.Response) (error : Js.Value)
    (fields : list (string * Js.Value)) :
  net (requests log) (OmniApi.call this endpoint options) = inr response →
  Http.ok response = false →
  Http.json response = inr error →
  Js.get error "detail" = inr (Js.Object fields) →
  Js.has_own_property fields "toString" = true →
  (OmniApi.fetch this endpoint options net log).1 = inl Js.TypeError_to_primitive.
Proof.
  intros Hnet Hok Hjson Hdetail Hown.
  rewrite fetch_eq, Hnet. simpl. rewrite Hok, Hjson, Hdetail. simpl.
  unfold Js.or. simpl. now rewrite Hown.
Qed.

(** A refusal whose [detail] has a [toString] member. *)
Lemma fetch_unconvertible_detail_witness :
  (OmniApi.fetch Scenario.api "/api/unstable/documents/import" Http.no_options
     (Scenario.remote
        (Scenario.refuses "Bad Request"
           (inr (Js.Object [("detail", Js.Object [("toString", Js.Str "x")])])))
        (Scenario.answers Scenario.import_result)) []).1
  = inl Js.TypeError_to_primitive.
Proof.
  apply (fetch_unconvertible_detail Scenario.api
           (Scenario.remote
              (Scenario.refuses "Bad Request"
                 (inr (Js.Object [("detail", Js.Object [("toString", Js.Str "x")])])))
              (Scenario.answers Scenario.import_result))
           "/api/unstable/documents/import" Http.no_options []
           {| Http.ok := false; Http.statusText := "Bad Request";
              Http.json :=
                inr (Js.Object [("detail", Js.Object [("toString", Js.Str "x")])]) |}
           (Js.Object [("detail", Js.Object [("toString", Js.Str "x")])])
           [("toString", Js.Str "x")]).
  - vm_compute; reflexivity.
  - reflexivity.
  - reflexivity.
  - reflexivity.
  - reflexivity.
Defined.

(** X24: when both calls succeed and the import result's
    [dashboard.dashboardId] is an object with a member named [toString],
    the interpolation of line 58 throws inside the [try]: the run ends
    with the failure status and that [TypeError]'s message, although the
    import has been sent and accepted. *)
Theorem handleMigration_unconvertible_id (config : Config.OmniConfig)
    (net : Http.Network) (source_id target_id : string) (log : list Event)
    (exportData data importResult : Js.Value) (fields : list (string * Js.Value)) :
  let GET := OmniApi.export_call (sourceApi config) source_id in
  let final := (handleMigration config source_id target_id net log).2 in
  (OmniApi.exportDashboard (sourceApi config) source_id net log).1 = inr exportData →
  import_request target_id exportData = inr data →
  (OmniApi.importDashboard (targetApi config) data net (log ++ [Fetch GET])).1
  = inr importResult →
  new_dashboard_id importResult = inr (Js.Object fields) →
  Js.has_own_property fields "toString" = true →
  requests final
  = requests log ++ [GET; OmniApi.import_call (targetApi config) data]
  ∧ status (state_of final) = "Migration failed"
  ∧ error (state_of final) = Js.message_of Js.TypeError_to_primitive.
Proof.
  intros GET final Hexport Hdata Himport Hid Hown. split.
  { now apply handleMigration_requests_exported with (exportData := exportData). }
  subst final. rewrite handleMigration_eq. simpl.
  rewrite exportDashboard_eq in Hexport. simpl in Hexport. rewrite Hexport, Hdata.
  rewrite importDashboard_eq, requests_fetch in Himport. simpl in Himport.
  fold GET. rewrite Himport. unfold new_dashboard_text. rewrite Hid. simpl.
  rewrite Hown. rewrite !state_of_app. split; reflexivity.
Qed.

(** The target answers with an identifier that is such an object. *)
Lemma handleMigration_unconvertible_id_witness :
  let importResult :=
    Js.Object
      [("dashboard",
        Js.Object [("dashboardId", Js.Object [("toString", Js.Number "1")])])] in
  let net :=
    Scenario.remote (Scenario.answers (Scenario.bundle "0.1"))
                    (Scenario.answers importResult) in
  let final :=
    (handleMigration Scenario.config "dash_123" Scenario.model_id net []).2 in
  requests final
  = requests []
    ++ [ OmniApi.export_call (sourceApi Scenario.config) "dash_123";
         OmniApi.import_call (targetApi Scenario.config) (Scenario.request "0.1") ]
  ∧ status (state_of final) = "Migration failed"
  ∧ error (state_of final) = Js.message_of Js.TypeError_to_primitive.
Proof.
  intros importResult net final.
  apply (handleMigration_unconvertible_id Scenario.config net
           "dash_123" Scenario.model_id [] (Scenario.bundle "0.1")
           (Scenario.request "0.1") importResult [("toString", Js.Number "1")]);
    vm_compute; reflexivity.
Defined.
